(** * Broker/index.js: the member broker in front of the Umbraco Management API

    A shallow embedding of [src/Broker/index.js].  The broker keeps one
    module-level variable ([tokenSet]) and talks to three collaborators:
    the OpenID client ([client.grant], [tokenSet.expired()]), the global
    [fetch], and the clock / uuid generator.  The collaborators are an
    interface ([Collaborators]); the broker code is written once against it,
    as state-passing functions over [state].

    Conventions of the embedding:
    - JavaScript values that flow through the broker (request bodies, parsed
      JSON, environment strings) are terms of [value]; numbers are the
      integers, which is all the broker ever inspects ([total === 0],
      HTTP statuses);
    - an [await]ed call that throws, or an exception inside an [async]
      function, is the [inl] branch of the monad [M];
    - [new Promise(async (resolve, reject) => ...)] is [newPromise]: the
      promise is settled only by [resolve] / [reject]; an exception escaping
      the async executor leaves it pending for ever ([Pending]);
    - [console.info] / [console.error] have no influence on control flow and
      are left out;
    - the handlers are run one after the other (no interleaving of two
      in-flight requests). *)

From Stdlib Require Import ZArith List String Bool Lia.
Import ListNotations.
Open Scope string_scope.
Open Scope Z_scope.

(** ** JavaScript values *)

Set Warnings "-register-all".

Inductive value : Type :=
| VUndefined
| VNull
| VBool (b : bool)
| VNum (n : Z)
| VStr (s : string)
| VArr (elems : list value)
| VObj (props : list (string * value)).

(** What an [await] or a property access can throw. [Thrown] carries the
    error of a collaborator (a rejected grant, a network failure). *)
Inductive exn : Type :=
| TypeError
| SyntaxError
| Thrown (e : value).

(** ToBoolean. *)
Definition truthy (v : value) : bool :=
  match v with
  | VUndefined | VNull => false
  | VBool b => b
  | VNum n => negb (n =? 0)
  | VStr s => negb (String.eqb s "")
  | VArr _ | VObj _ => true
  end.

(** [a ?? b] *)
Definition nullish (a b : value) : value :=
  match a with
  | VUndefined | VNull => b
  | _ => a
  end.

Fixpoint assoc (k : string) (props : list (string * value)) : option value :=
  match props with
  | [] => None
  | (k', v) :: rest => if String.eqb k k' then Some v else assoc k rest
  end.

Definition orUndefined (o : option value) : value :=
  match o with
  | Some v => v
  | None => VUndefined
  end.

(** [v.k] for the property names the broker reads (own properties and
    [length]; nothing the broker reads lives on a prototype). *)
Definition getProp (v : value) (k : string) : exn + value :=
  match v with
  | VUndefined | VNull => inl TypeError
  | VObj props => inr (orUndefined (assoc k props))
  | VArr elems =>
      inr (if String.eqb k "length" then VNum (Z.of_nat (List.length elems))
           else VUndefined)
  | VStr s =>
      inr (if String.eqb k "length" then VNum (Z.of_nat (String.length s))
           else VUndefined)
  | VBool _ | VNum _ => inr VUndefined
  end.

(** [v[0]] *)
Definition getFirst (v : value) : exn + value :=
  match v with
  | VUndefined | VNull => inl TypeError
  | VArr elems => inr (orUndefined (nth_error elems 0))
  | VObj props => inr (orUndefined (assoc "0" props))
  | VStr s =>
      inr (match s with
           | EmptyString => VUndefined
           | String c _ => VStr (String c EmptyString)
           end)
  | VBool _ | VNum _ => inr VUndefined
  end.

(** [o.k = v] on an object literal: replaces the property in place, or adds
    it after the existing ones. *)
Fixpoint setAssoc (k : string) (v : value) (props : list (string * value))
  : list (string * value) :=
  match props with
  | [] => [(k, v)]
  | (k', v') :: rest =>
      if String.eqb k k' then (k, v) :: rest else (k', v') :: setAssoc k v rest
  end.

Definition setProp (o : value) (k : string) (v : value) : value :=
  match o with
  | VObj props => VObj (setAssoc k v props)
  | _ => o
  end.

(** [v === 0] *)
Definition isZero (v : value) : bool :=
  match v with
  | VNum n => n =? 0
  | _ => false
  end.

(** ** Configuration: [process.env] after [dotenv.config()] *)

Record Env : Type := mkEnv {
  UMBRACO_HOST : option string;
  UMBRACO_MEMBER_TYPE_ID : option string;
  UMBRACO_MEMBER_GROUP_REGULAR_ID : option string;
  UMBRACO_MEMBER_GROUP_VIP_ID : option string
}.

(** A [process.env] entry as a value: a string, or [undefined] when unset. *)
Definition envValue (o : option string) : value :=
  match o with
  | Some s => VStr s
  | None => VUndefined
  end.

(** ** The wire: requests, responses, token sets *)

Inductive Method : Type := GET | POST | PUT | DELETE.

(** The three URL templates of the broker, with the interpolated values kept
    apart from the fixed text. *)
Inductive Url : Type :=
| FilterMemberUrl (host : option string) (memberId : value)
    (* `${HOST}umbraco/management/api/v1/filter/member?filter=${memberId}&take=1` *)
| MemberUrl (host : option string)
    (* `${HOST}umbraco/management/api/v1/member` *)
| MemberIdUrl (host : option string) (id : value).
    (* `${HOST}umbraco/management/api/v1/member/${member.id}` *)

Record Request : Type := mkRequest {
  method : Method;
  url : Url;
  bearer : value;               (* 'Authorization': `Bearer ${accessToken}` *)
  payload : option value        (* body: JSON.stringify(umbracoMember) *)
}.

Record Response : Type := mkResponse {
  status : Z;
  statusText : string;
  jsonBody : option value       (* the body parsed as JSON, when it is JSON *)
}.

(** [response.ok]: the status is in the range 200-299. *)
Definition ok (r : Response) : bool := (200 <=? status r) && (status r <=? 299).

(** [response.bodyUsed]: nothing has read the body of a response that
    [fetch] has just handed over. *)
Definition bodyUsed (r : Response) : bool := false.

(** [response.json()] *)
Definition json (r : Response) : exn + value :=
  match jsonBody r with
  | Some v => inr v
  | None => inl SyntaxError
  end.

Record TokenSet : Type := mkTokenSet {
  access_token : value;
  expires_at : option Z
}.

(** What leaves the process. *)
Inductive event : Type :=
| EvGrant                       (* client.grant({grant_type: 'client_credentials'}) *)
| EvFetch (r : Request).

Definition isGrant (e : event) : bool :=
  match e with EvGrant => true | EvFetch _ => false end.

Definition isMutating (e : event) : bool :=
  match e with
  | EvGrant => false
  | EvFetch r => match method r with GET => false | _ => true end
  end.

(** The argument of [reject] everywhere in the broker: [{code, description}]. *)
Record failure : Type := mkFailure {
  code : Z;
  description : string
}.

(** The fate of a [new Promise(async (resolve, reject) => ...)]. *)
Inductive promise (A : Type) : Type :=
| Resolved (a : A)
| Rejected (f : failure)
| Pending (x : exn).            (* never settled; [x] escaped the executor *)
Arguments Resolved {A} a.
Arguments Rejected {A} f.
Arguments Pending {A} x.

(** What the executor did with its two callbacks. *)
Inductive settlement (A : Type) : Type :=
| Resolve (a : A)
| Reject (f : failure).
Arguments Resolve {A} a.
Arguments Reject {A} f.

(** The member object [getMember] resolves with. *)
Record Member : Type := mkMember {
  id : value;
  email : value;
  memberId : value;
  name : value
}.

(** What the Express handler did with [res]. *)
Inductive handled : Type :=
| Replied (st : Z) (body : option string)   (* res.status(st).send(body) *)
| Hung (x : exn).                           (* no reply was ever sent *)

(** ** The collaborators *)

Class Collaborators (W : Type) : Type := {
  grant : W -> (exn + TokenSet) * W;
  expired : TokenSet -> W -> bool;
  fetch : Request -> W -> (exn + Response) * W;
  uuidV4 : W -> string * W;
  toUTCString : W -> string     (* (new Date()).toUTCString() *)
}.

(** ** The broker *)

Section Broker.

Context {W : Type} `{Collaborators W}.
Variable env : Env.

(** The module-level [let tokenSet = null], the collaborators' state, and
    the record of what has left the process so far. *)
Record state : Type := mkState {
  tokenSet : option TokenSet;
  world : W;
  trace : list event
}.

(** Code inside an [async] function: it runs on the state and either
    returns or throws. *)
Definition M (A : Type) : Type := state -> (exn + A) * state.

Definition ret {A : Type} (a : A) : M A := fun s => (inr a, s).

Definition throw {A : Type} (x : exn) : M A := fun s => (inl x, s).

Definition bind {A B : Type} (m : M A) (k : A -> M B) : M B :=
  fun s =>
    match m s with
    | (inr a, s') => k a s'
    | (inl x, s') => (inl x, s')
    end.

Definition lift {A : Type} (r : exn + A) : M A := fun s => (r, s).

Notation "x <- m ;; k" := (bind m (fun x => k))
  (at level 61, m at next level, right associativity).
Notation "m ;;; k" := (bind m (fun _ => k))
  (at level 61, right associativity).

Definition getTokenSet : M (option TokenSet) := fun s => (inr (tokenSet s), s).

Definition setTokenSet (ts : TokenSet) : M unit :=
  fun s => (inr tt, mkState (Some ts) (world s) (trace s)).

Definition getWorld : M W := fun s => (inr (world s), s).

(** [await client.grant({grant_type: 'client_credentials'})] *)
Definition awaitGrant : M TokenSet :=
  fun s =>
    let (r, w) := grant (world s) in
    (r, mkState (tokenSet s) w (trace s ++ [EvGrant])).

(** [await fetch(url, {method, headers, body})] *)
Definition awaitFetch (rq : Request) : M Response :=
  fun s =>
    let (r, w) := fetch rq (world s) in
    (r, mkState (tokenSet s) w (trace s ++ [EvFetch rq])).

(** [uuidV4()] *)
Definition callUuid : M string :=
  fun s =>
    let (u, w) := uuidV4 (world s) in
    (inr u, mkState (tokenSet s) w (trace s)).

(** [!tokenSet || tokenSet.expired()] *)
Definition stale (s : state) : bool :=
  match tokenSet s with
  | None => true
  | Some ts => expired ts (world s)
  end.

Definition getAccessToken : M value :=
  ts <- getTokenSet ;;
  w <- getWorld ;;
  (if match ts with None => true | Some ts => expired ts w end
   then ts' <- awaitGrant ;; setTokenSet ts'
   else ret tt) ;;;
  ts <- getTokenSet ;;
  match ts with
  | Some ts => ret (access_token ts)
  | None => throw TypeError
  end.

(** [new Promise(async (resolve, reject) => body)] *)
Definition newPromise {A : Type} (body : M (settlement A))
  : state -> promise A * state :=
  fun s =>
    match body s with
    | (inr (Resolve a), s') => (Resolved a, s')
    | (inr (Reject f), s') => (Rejected f, s')
    | (inl x, s') => (Pending x, s')
    end.

(** [await p.then(onFulfilled, onRejected)]; a promise that never settles
    never resumes the caller. *)
Definition awaitThen {A B : Type} (p : state -> promise A * state)
  (onFulfilled : A -> M B) (onRejected : failure -> M B) : M B :=
  fun s =>
    match p s with
    | (Resolved a, s') => onFulfilled a s'
    | (Rejected f, s') => onRejected f s'
    | (Pending x, s') => (inl x, s')
    end.

Definition umbracoMemberModel (now : string) (memberId name email isVip : value)
  : value :=
  let groupIds :=
    if truthy isVip
    then [envValue (UMBRACO_MEMBER_GROUP_REGULAR_ID env);
          envValue (UMBRACO_MEMBER_GROUP_VIP_ID env)]
    else [envValue (UMBRACO_MEMBER_GROUP_REGULAR_ID env)] in
  VObj [
    ("email", email);
    ("username", memberId);
    ("memberType", VObj [("id", envValue (UMBRACO_MEMBER_TYPE_ID env))]);
    ("isApproved", VBool true);
    ("groups", VArr groupIds);
    ("values", VArr [VObj [
        ("culture", VNull);
        ("segment", VNull);
        ("alias", VStr "lastSyncMessage");
        ("value", VStr ("Last update: " ++ now))]]);
    ("variants", VArr [VObj [
        ("culture", VNull);
        ("segment", VNull);
        ("name", name)]])
  ].

(** The request of [getMember]. *)
Definition searchRequest (memberId accessToken : value) : Request :=
  mkRequest GET (FilterMemberUrl (UMBRACO_HOST env) memberId) accessToken None.

Definition getMember (memberId : value) : state -> promise (option Member) * state :=
  newPromise (
    accessToken <- getAccessToken ;;
    response <- awaitFetch (searchRequest memberId accessToken) ;;
    if ok response then
      result <- lift (json response) ;;
      total <- lift (getProp result "total") ;;
      if isZero total then ret (Resolve None)
      else
        items <- lift (getProp result "items") ;;
        item <- lift (getFirst items) ;;
        item_id <- lift (getProp item "id") ;;
        item_email <- lift (getProp item "email") ;;
        item_username <- lift (getProp item "username") ;;
        variants <- lift (getProp item "variants") ;;
        variant <- lift (getFirst variants) ;;
        variant_name <- lift (getProp variant "name") ;;
        ret (Resolve (Some (mkMember item_id item_email item_username variant_name)))
    else
      (if bodyUsed response then lift (json response)
       else ret (VStr (statusText response))) ;;;
      ret (Reject (mkFailure (status response) (statusText response)))
  ).

Definition createMember (memberId name email isVip : value)
  : state -> promise bool * state :=
  newPromise (
    awaitThen (getMember memberId)
      (fun member =>
         match member with
         | Some _ => ret (Reject (mkFailure 409 "Member already exists"))
         | None =>
             w <- getWorld ;;
             let umbracoMember :=
               umbracoMemberModel (toUTCString w) memberId name email isVip in
             password <- callUuid ;;
             let umbracoMember := setProp umbracoMember "password" (VStr password) in
             accessToken <- getAccessToken ;;
             response <- awaitFetch
               (mkRequest POST (MemberUrl (UMBRACO_HOST env)) accessToken
                  (Some umbracoMember)) ;;
             if ok response then ret (Resolve true)
             else
               lift (json response) ;;;
               ret (Reject (mkFailure (status response) (statusText response)))
         end)
      (fun error => ret (Reject error))
  ).

Definition updateMember (memberId name email isVip : value)
  : state -> promise bool * state :=
  newPromise (
    awaitThen (getMember memberId)
      (fun member =>
         match member with
         | None => ret (Reject (mkFailure 404 "No such member"))
         | Some member =>
             w <- getWorld ;;
             let umbracoMember :=
               umbracoMemberModel (toUTCString w) memberId name email isVip in
             accessToken <- getAccessToken ;;
             response <- awaitFetch
               (mkRequest PUT (MemberIdUrl (UMBRACO_HOST env) (id member)) accessToken
                  (Some umbracoMember)) ;;
             if ok response then ret (Resolve true)
             else
               lift (json response) ;;;
               ret (Reject (mkFailure (status response) (statusText response)))
         end)
      (fun error => ret (Reject error))
  ).

Definition deleteMember (memberId : value) : state -> promise bool * state :=
  newPromise (
    awaitThen (getMember memberId)
      (fun member =>
         match member with
         | None => ret (Reject (mkFailure 404 "No such member"))
         | Some member =>
             accessToken <- getAccessToken ;;
             response <- awaitFetch
               (mkRequest DELETE (MemberIdUrl (UMBRACO_HOST env) (id member)) accessToken
                  None) ;;
             if ok response then ret (Resolve true)
             else
               lift (json response) ;;;
               ret (Reject (mkFailure (status response) (statusText response)))
         end)
      (fun error => ret (Reject error))
  ).

(** *** The Express handlers *)

(** An [async (req, res) => ...] handler: a reply is whatever the body
    passed to [res.status(..).send(..)]; an exception in the body, or an
    [await] that never resumes, leaves the request unanswered. *)
Definition handler (body : M (Z * option string)) : state -> handled * state :=
  fun s =>
    match body s with
    | (inr (st, b), s') => (Replied st b, s')
    | (inl x, s') => (Hung x, s')
    end.

Definition malformed : string :=
  "Malformed request body (missing required member properties)".

(** [app.post('/member', ...)]; [data] is [req.body]. *)
Definition postMember (data : value) : state -> handled * state :=
  handler (
    data_email <- lift (getProp data "email") ;;
    data_name <- lift (getProp data "name") ;;
    data_memberId <- lift (getProp data "memberId") ;;
    if negb (truthy data_email) || negb (truthy data_name)
       || negb (truthy data_memberId)
    then ret (400, Some malformed)
    else
      data_isVip <- lift (getProp data "isVip") ;;
      awaitThen
        (createMember data_memberId data_name data_email
           (nullish data_isVip (VBool false)))
        (fun _ => ret (200, None))
        (fun error => ret (code error, Some (description error)))
  ).

(** [app.put('/member/:memberId', ...)]; [param] is [req.params.memberId]. *)
Definition putMember (param : string) (data : value) : state -> handled * state :=
  handler (
    data_email <- lift (getProp data "email") ;;
    data_name <- lift (getProp data "name") ;;
    if negb (truthy data_email) || negb (truthy data_name)
    then ret (400, Some malformed)
    else
      data_isVip <- lift (getProp data "isVip") ;;
      awaitThen
        (updateMember (VStr param) data_name data_email
           (nullish data_isVip (VBool false)))
        (fun _ => ret (200, None))
        (fun error => ret (code error, Some (description error)))
  ).

(** [app.delete('/member/:memberId', ...)] *)
Definition delMember (param : string) : state -> handled * state :=
  handler (
    awaitThen (deleteMember (VStr param))
      (fun _ => ret (200, None))
      (fun error => ret (code error, Some (description error)))
  ).

(** The state after a [fetch] of [rq] that left the collaborators in [w]. *)
Definition fetched (s : state) (rq : Request) (w : W) : state :=
  mkState (tokenSet s) w (trace s ++ [EvFetch rq]).

(** An event of the second half of update and delete: a grant, or the one
    request with method [m] addressed to the downstream id [i]. *)
Definition addresses (m : Method) (i : value) (e : event) : Prop :=
  e = EvGrant
  \/ exists tok body,
      e = EvFetch (mkRequest m (MemberIdUrl (UMBRACO_HOST env) i) tok body).

(** The events a run added to the trace. *)
Definition since (s s' : state) : list event :=
  skipn (List.length (trace s)) (trace s').

Definition grants (evs : list event) : nat :=
  List.length (filter isGrant evs).

(** *** The three operations, read flat

    [createMember], [updateMember] and [deleteMember] end alike: fetch a
    token, send one request, settle on the response.  [send] and [answer]
    are that common ending written without the monad; the operations are
    proved equal to their flat reading before anything is derived from it. *)

(** What the operation makes of the response to its request. *)
Definition answer (r : Response) : promise bool :=
  if ok r then Resolved true
  else match json r with
       | inr _ => Rejected (mkFailure (status r) (statusText r))
       | inl x => Pending x
       end.

Definition send (rq : value -> Request) (s : state) : promise bool * state :=
  match getAccessToken s with
  | (inl x, s') => (Pending x, s')
  | (inr accessToken, s') =>
      match fetch (rq accessToken) (world s') with
      | (inl x, w) => (Pending x, fetched s' (rq accessToken) w)
      | (inr response, w) => (answer response, fetched s' (rq accessToken) w)
      end
  end.

(** The state after [uuidV4()]. *)
Definition afterUuid (s : state) : state :=
  mkState (tokenSet s) (snd (uuidV4 (world s))) (trace s).

(** The request of [createMember], built in the state [s] the lookup left. *)
Definition createRequest (memberId name email isVip : value) (s : state)
    (accessToken : value) : Request :=
  mkRequest POST (MemberUrl (UMBRACO_HOST env)) accessToken
    (Some (setProp
             (umbracoMemberModel (toUTCString (world s)) memberId name email isVip)
             "password" (VStr (fst (uuidV4 (world s)))))).

(** The request of [updateMember]. *)
Definition updateRequest (memberId name email isVip : value) (member : Member)
    (s : state) (accessToken : value) : Request :=
  mkRequest PUT (MemberIdUrl (UMBRACO_HOST env) (id member)) accessToken
    (Some (umbracoMemberModel (toUTCString (world s)) memberId name email isVip)).

(** The request of [deleteMember]. *)
Definition deleteRequest (member : Member) (accessToken : value) : Request :=
  mkRequest DELETE (MemberIdUrl (UMBRACO_HOST env) (id member)) accessToken None.

(** The events of one authorised call made in [s]: a grant when the token
    set is stale, then the request, unless the token could not be had. *)
Definition call (rq : value -> Request) (s : state) : list event :=
  (if stale s then [EvGrant] else [])
  ++ match fst (getAccessToken s) with
     | inr accessToken => [EvFetch (rq accessToken)]
     | inl _ => []
     end.

(** What a handler replies for the fate of the operation it awaits. *)
Definition relay (p : promise bool * state) : handled * state :=
  match p with
  | (Resolved _, s) => (Replied 200 None, s)
  | (Rejected error, s) => (Replied (code error) (Some (description error)), s)
  | (Pending x, s) => (Hung x, s)
  end.

(** The requests among some events. *)
Definition requests (evs : list event) : list event :=
  filter (fun e => negb (isGrant e)) evs.

Definition mutations (evs : list event) : list event := filter isMutating evs.

(** The call [rq] made in [s] was answered with [r], which left [s']. *)
Definition answered (rq : value -> Request) (s s' : state) (r : Response) : Prop :=
  exists accessToken s1 w,
    getAccessToken s = (inr accessToken, s1)
    /\ fetch (rq accessToken) (world s1) = (inr r, w)
    /\ s' = fetched s1 (rq accessToken) w.

(** The call [rq] made in [s] never came to an answer the operation could
    settle on: the token could not be had, [fetch] threw, or the answer was a
    non-success status without a JSON body. [x] is what was thrown and [s']
    the state left. *)
Definition stuck (rq : value -> Request) (s s' : state) (x : exn) : Prop :=
  getAccessToken s = (inl x, s')
  \/ (exists accessToken s1 w,
        getAccessToken s = (inr accessToken, s1)
        /\ fetch (rq accessToken) (world s1) = (inl x, w)
        /\ s' = fetched s1 (rq accessToken) w)
  \/ (exists r, answered rq s s' r /\ ok r = false /\ jsonBody r = None
                /\ x = SyntaxError).

End Broker.

Arguments state W : clear implicits.
Arguments M W A : clear implicits.

(** ** A scripted downstream

    A stand-in for the OpenID client, [fetch], the clock and the uuid
    generator: grants and responses are handed out in the order they were
    scripted, and the clock is a number of seconds that a scenario moves by
    hand.  [expired] is the arithmetic of openid-client's [TokenSet]:
    [expires_in] is [max (expires_at - now) 0] and the token set is expired
    when that is [0]; a token set without [expires_at] never expires. *)

Module Script.

Record downstream : Type := mkWorld {
  clock : Z;
  grantsLeft : list (exn + TokenSet);
  responsesLeft : list (exn + Response);
  uuidsLeft : list string
}.

Definition exhausted : exn := Thrown (VStr "script exhausted").

Definition scriptedGrant (w : downstream) : (exn + TokenSet) * downstream :=
  match grantsLeft w with
  | [] => (inl exhausted, w)
  | g :: rest => (g, mkWorld (clock w) rest (responsesLeft w) (uuidsLeft w))
  end.

Definition scriptedExpired (ts : TokenSet) (w : downstream) : bool :=
  match expires_at ts with
  | Some t => Z.max (t - clock w) 0 =? 0
  | None => false
  end.

Definition scriptedFetch (rq : Request) (w : downstream) : (exn + Response) * downstream :=
  match responsesLeft w with
  | [] => (inl exhausted, w)
  | r :: rest => (r, mkWorld (clock w) (grantsLeft w) rest (uuidsLeft w))
  end.

Definition scriptedUuid (w : downstream) : string * downstream :=
  match uuidsLeft w with
  | [] => ("00000000-0000-4000-8000-000000000000", w)
  | u :: rest => (u, mkWorld (clock w) (grantsLeft w) (responsesLeft w) rest)
  end.

Definition scriptedDate (w : downstream) : string := "Thu, 01 Jan 1970 00:00:00 GMT".

#[export] Instance collaborators : Collaborators downstream := {
  grant := scriptedGrant;
  expired := scriptedExpired;
  fetch := scriptedFetch;
  uuidV4 := scriptedUuid;
  toUTCString := scriptedDate
}.

(** The process right after start-up: no token set, nothing sent. *)
Definition boot (w : downstream) : state downstream := mkState None w [].

(** Let [dt] seconds pass between two calls. *)
Definition sleep (dt : Z) (s : state downstream) : state downstream :=
  mkState (tokenSet s)
    (mkWorld (clock (world s) + dt) (grantsLeft (world s))
       (responsesLeft (world s)) (uuidsLeft (world s)))
    (trace s).

Definition testEnv : Env :=
  mkEnv (Some "https://cms.test/") (Some "type-1") (Some "group-regular")
    (Some "group-vip").

Definition token (t : string) (until : Z) : TokenSet :=
  mkTokenSet (VStr t) (Some until).

Definition found (memberId : string) : Response :=
  mkResponse 200 "OK"
    (Some (VObj [("total", VNum 1);
                 ("items", VArr [VObj [("id", VStr "d1f0");
                                       ("email", VStr "a@x.com");
                                       ("username", VStr memberId);
                                       ("variants", VArr [VObj [("name", VStr "Alice")]])]])])).

Definition notFound : Response :=
  mkResponse 200 "OK" (Some (VObj [("total", VNum 0); ("items", VArr [])])).

Definition serverError : Response :=
  mkResponse 500 "Internal Server Error" None.

(** [total] says one, [items] is empty. *)
Definition miscounted : Response :=
  mkResponse 200 "OK" (Some (VObj [("total", VNum 1); ("items", VArr [])])).

Definition alice : list value :=
  [VStr "m1"; VStr "Alice"; VStr "a@x.com"; VBool true].

(** Scenarios: the clock starts at 1000 s. *)

(** Two tokens on offer, the first good for a minute. *)
Definition twoTokens : state downstream :=
  boot (mkWorld 1000 [inr (token "t1" 1060); inr (token "t2" 2000)] [] []).

(** An expired token set is held and the token endpoint refuses the client. *)
Definition refused : state downstream :=
  mkState (Some (token "t0" 900))
    (mkWorld 1000 [inl (Thrown (VStr "invalid_client"))] [] []) [].

(** The downstream answers the requests of a session in this order. *)
Definition session (responses : list Response) : state downstream :=
  boot (mkWorld 1000 [inr (token "t1" 1060)] (map inr responses) ["u1"]).

Definition created : Response := mkResponse 201 "Created" None.

(** A success status with an empty body. *)
Definition done : Response := mkResponse 200 "OK" None.

Definition badRequest : Response :=
  mkResponse 400 "Bad Request" (Some (VObj [("title", VStr "Invalid")])).

(** What the lookup makes of [found]. *)
Definition aliceFound : Member :=
  mkMember (VStr "d1f0") (VStr "a@x.com") (VStr "m1") (VStr "Alice").

(** A well-formed request body, without [isVip]. *)
Definition aliceBody : list (string * value) :=
  [("memberId", VStr "m1"); ("name", VStr "Alice"); ("email", VStr "a@x.com")].

(** The same with an empty name. *)
Definition namelessBody : list (string * value) :=
  [("memberId", VStr "m1"); ("name", VStr ""); ("email", VStr "a@x.com")].

End Script.

(** * Properties *)

Section BrokerFacts.

Context {W : Type} `{Collaborators W}.
Variable env : Env.

Local Open Scope list_scope.

(** ** Traces only grow *)

Lemma skipn_length_app (l evs : list event) :
  skipn (List.length l) (l ++ evs) = evs.
Proof.
  induction l as [|e l IH]; simpl; [reflexivity | exact IH].
Qed.

Lemma since_app (s s' : state W) (evs : list event) :
  trace s' = trace s ++ evs -> since s s' = evs.
Proof.
  intros E. unfold since. rewrite E. apply skipn_length_app.
Qed.

Lemma since_refl (s : state W) : since s s = [].
Proof.
  apply since_app. now rewrite app_nil_r.
Qed.

(** ** The token provider, case by case *)

Lemma getAccessToken_fresh (s : state W) (ts : TokenSet) :
  tokenSet s = Some ts -> expired ts (world s) = false ->
  getAccessToken s = (inr (access_token ts), s).
Proof.
  intros Hts Hexp.
  unfold getAccessToken, bind, getTokenSet, getWorld, ret.
  rewrite Hts, Hexp. simpl. rewrite Hts. reflexivity.
Qed.

Lemma getAccessToken_granted (s : state W) (ts : TokenSet) (w' : W) :
  stale s = true -> grant (world s) = (inr ts, w') ->
  getAccessToken s
  = (inr (access_token ts), mkState (Some ts) w' (trace s ++ [EvGrant])).
Proof.
  intros Hst Hg. unfold stale in Hst.
  unfold getAccessToken, bind, getTokenSet, getWorld, awaitGrant, setTokenSet, ret.
  destruct (tokenSet s) as [ts0|] eqn:E; [rewrite Hst|];
    cbn; rewrite Hg; cbn; rewrite ?E; reflexivity.
Qed.

Lemma getAccessToken_refused (s : state W) (x : exn) (w' : W) :
  stale s = true -> grant (world s) = (inl x, w') ->
  getAccessToken s = (inl x, mkState (tokenSet s) w' (trace s ++ [EvGrant])).
Proof.
  intros Hst Hg. unfold stale in Hst.
  unfold getAccessToken, bind, getTokenSet, getWorld, awaitGrant, setTokenSet, ret.
  destruct (tokenSet s) as [ts0|] eqn:E; [rewrite Hst|];
    cbn; rewrite Hg; cbn; rewrite ?E; reflexivity.
Qed.

Lemma stale_false (s : state W) :
  stale s = false ->
  exists ts, tokenSet s = Some ts /\ expired ts (world s) = false.
Proof.
  unfold stale. destruct (tokenSet s) as [ts|]; [|discriminate].
  intros E. now exists ts.
Qed.

(** Every run of [getAccessToken] adds either nothing or one grant. *)
Lemma getAccessToken_trace (s : state W) :
  trace (snd (getAccessToken s))
  = trace s ++ (if stale s then [EvGrant] else []).
Proof.
  destruct (stale s) eqn:Hst.
  - destruct (grant (world s)) as [[x|ts] w'] eqn:Hg.
    + now rewrite (getAccessToken_refused s x w' Hst Hg).
    + now rewrite (getAccessToken_granted s ts w' Hst Hg).
  - destruct (stale_false s Hst) as [ts [Hts Hexp]].
    rewrite (getAccessToken_fresh s ts Hts Hexp). simpl. now rewrite app_nil_r.
Qed.

(** C1. [getAccessToken] performs a client-credentials grant exactly when no
    token set is held or the held one is expired. A successful grant is
    stored in [tokenSet] (token and expiry together) and its access token
    returned; otherwise the state is left as it was and the cached access
    token is returned. Hence: a call with nothing cached makes exactly one
    grant, a call with an unexpired token set makes none, and a call with an
    expired one makes exactly one. *)
Theorem getAccessToken_grants_iff_stale (s : state W) :
  (grants (since s (snd (getAccessToken s))) = 1%nat <-> stale s = true)
  /\ (stale s = false -> since s (snd (getAccessToken s)) = [])
  /\ (forall ts w', stale s = true -> grant (world s) = (inr ts, w') ->
        getAccessToken s
        = (inr (access_token ts), mkState (Some ts) w' (trace s ++ [EvGrant])))
  /\ (forall ts, tokenSet s = Some ts -> expired ts (world s) = false ->
        getAccessToken s = (inr (access_token ts), s))
  /\ (tokenSet s = None -> since s (snd (getAccessToken s)) = [EvGrant])
  /\ (forall ts, tokenSet s = Some ts -> expired ts (world s) = true ->
        since s (snd (getAccessToken s)) = [EvGrant]).
Proof.
  pose proof (since_app s _ _ (getAccessToken_trace s)) as Hs.
  repeat split.
  - rewrite Hs. destruct (stale s); [reflexivity | discriminate].
  - intros Hst. rewrite Hs, Hst. reflexivity.
  - intros Hst. rewrite Hs, Hst. reflexivity.
  - intros ts w'. apply getAccessToken_granted.
  - intros ts. apply getAccessToken_fresh.
  - intros Hn. rewrite Hs. unfold stale. now rewrite Hn.
  - intros ts Hts Hexp. rewrite Hs. unfold stale. now rewrite Hts, Hexp.
Qed.

(** C10. When the client-credentials grant fails, [getAccessToken] throws
    that very failure and [tokenSet] is what it was before the call (absent,
    expired or otherwise): it is neither replaced nor cleared. No failure of
    [getAccessToken] ever changes [tokenSet]. *)
Theorem getAccessToken_failure_keeps_tokenSet (s : state W) :
  (forall x w', stale s = true -> grant (world s) = (inl x, w') ->
     fst (getAccessToken s) = inl x
     /\ tokenSet (snd (getAccessToken s)) = tokenSet s)
  /\ (forall x s', getAccessToken s = (inl x, s') -> tokenSet s' = tokenSet s).
Proof.
  split.
  - intros x w' Hst Hg. rewrite (getAccessToken_refused s x w' Hst Hg). now split.
  - intros x s' E.
    destruct (stale s) eqn:Hst.
    + destruct (grant (world s)) as [[x0|ts] w'] eqn:Hg.
      * rewrite (getAccessToken_refused s x0 w' Hst Hg) in E.
        inversion E; subst. reflexivity.
      * rewrite (getAccessToken_granted s ts w' Hst Hg) in E. discriminate.
    + destruct (stale_false s Hst) as [ts [Hts Hexp]].
      rewrite (getAccessToken_fresh s ts Hts Hexp) in E. discriminate.
Qed.

(** ** The lookup, step by step *)

Ltac run :=
  repeat (cbn [fst snd bodyUsed] in *;
          match goal with
          | |- context [match ?x with _ => _ end] =>
              lazymatch x with
              | context [match _ with _ => _ end] => fail
              | _ => destruct x eqn:?
              end
          | _ => progress (unfold bind, lift, ret, throw in * )
          end).

Lemma awaitFetch_run (rq : Request) (s : state W) (r : exn + Response) (w : W) :
  fetch rq (world s) = (r, w) -> awaitFetch rq s = (r, fetched s rq w).
Proof.
  intros E. unfold awaitFetch, fetched. now rewrite E.
Qed.

(** A lookup whose token fetch threw never settles and sends no request. *)
Lemma getMember_no_token (s s1 : state W) (memberId : value) (x : exn) :
  getAccessToken s = (inl x, s1) ->
  getMember env memberId s = (Pending x, s1).
Proof.
  intros E. unfold getMember, newPromise, bind. now rewrite E.
Qed.

(** A lookup whose [fetch] threw never settles. *)
Lemma getMember_no_response (s s1 : state W) (memberId tok : value) (x : exn) (w : W) :
  getAccessToken s = (inr tok, s1) ->
  fetch (searchRequest env memberId tok) (world s1) = (inl x, w) ->
  getMember env memberId s
  = (Pending x, fetched s1 (searchRequest env memberId tok) w).
Proof.
  intros E F. unfold getMember, newPromise, bind.
  rewrite E, (awaitFetch_run _ _ _ _ F). reflexivity.
Qed.

(** Whatever the response, the lookup ends in the state the [fetch] left. *)
Lemma getMember_state (s s1 : state W) (memberId tok : value) (r : Response) (w : W) :
  getAccessToken s = (inr tok, s1) ->
  fetch (searchRequest env memberId tok) (world s1) = (inr r, w) ->
  snd (getMember env memberId s) = fetched s1 (searchRequest env memberId tok) w.
Proof.
  intros E F. unfold getMember, newPromise, bind at 1 2.
  rewrite E, (awaitFetch_run _ _ _ _ F).
  generalize (fetched s1 (searchRequest env memberId tok) w). intros s2.
  run; cbn; congruence.
Qed.

Lemma getMember_not_ok (s s1 : state W) (memberId tok : value) (r : Response) (w : W) :
  getAccessToken s = (inr tok, s1) ->
  fetch (searchRequest env memberId tok) (world s1) = (inr r, w) ->
  ok r = false ->
  getMember env memberId s
  = (Rejected (mkFailure (status r) (statusText r)),
     fetched s1 (searchRequest env memberId tok) w).
Proof.
  intros E F Hok. unfold getMember, newPromise, bind.
  rewrite E, (awaitFetch_run _ _ _ _ F), Hok. reflexivity.
Qed.

Lemma getMember_total_zero (s s1 : state W) (memberId tok : value) (r : Response)
    (w : W) (result total : value) :
  getAccessToken s = (inr tok, s1) ->
  fetch (searchRequest env memberId tok) (world s1) = (inr r, w) ->
  ok r = true -> jsonBody r = Some result ->
  getProp result "total" = inr total -> isZero total = true ->
  getMember env memberId s
  = (Resolved None, fetched s1 (searchRequest env memberId tok) w).
Proof.
  intros E F Hok Hj Ht Hz. unfold getMember, newPromise, bind, lift, json.
  rewrite E, (awaitFetch_run _ _ _ _ F), Hok, Hj, Ht, Hz. reflexivity.
Qed.

(** With a successful response, the lookup never rejects. *)
Lemma getMember_ok_not_rejected (s s1 : state W) (memberId tok : value) (r : Response)
    (w : W) (f : failure) :
  getAccessToken s = (inr tok, s1) ->
  fetch (searchRequest env memberId tok) (world s1) = (inr r, w) ->
  ok r = true ->
  fst (getMember env memberId s) <> Rejected f.
Proof.
  intros E F Hok. unfold getMember, newPromise, bind at 1 2.
  rewrite E, (awaitFetch_run _ _ _ _ F), Hok.
  generalize (fetched s1 (searchRequest env memberId tok) w). intros s2.
  run; cbn; congruence.
Qed.

(** A lookup adds at most a grant and its one [GET] to the trace. *)
Lemma getMember_trace (s : state W) (memberId : value) :
  exists evs,
    trace (snd (getMember env memberId s)) = trace s ++ evs
    /\ forallb (fun e => negb (isMutating e)) evs = true.
Proof.
  pose proof (getAccessToken_trace s) as T.
  destruct (getAccessToken s) as [[x|tok] s1] eqn:E; cbn [snd] in T.
  - rewrite (getMember_no_token s s1 memberId x E). cbn [snd].
    eexists; split; [exact T|]. now destruct (stale s).
  - destruct (fetch (searchRequest env memberId tok) (world s1)) as [[x|r] w] eqn:F.
    + rewrite (getMember_no_response s s1 memberId tok x w E F). cbn.
      rewrite T, <- app_assoc. eexists; split; [reflexivity|].
      now destruct (stale s).
    + rewrite (getMember_state s s1 memberId tok r w E F). cbn.
      rewrite T, <- app_assoc. eexists; split; [reflexivity|].
      now destruct (stale s).
Qed.

Lemma getMember_no_mutation (s : state W) (memberId : value) :
  forallb (fun e => negb (isMutating e))
    (since s (snd (getMember env memberId s))) = true.
Proof.
  destruct (getMember_trace s memberId) as [evs [T P]].
  now rewrite (since_app _ _ _ T).
Qed.

(** C4. When the search answers with a success status and a result whose
    [total] is [0], [getMember] resolves with [null]: an empty result set is
    an outcome, not a failure. [getMember] rejects only when the search
    answered with a non-success status, and then with that status and its
    status text as [{code, description}]; on every non-success status it
    does reject so. *)
Theorem getMember_empty_is_null (memberId : value) :
  (forall (s s1 : state W) tok r w result,
      getAccessToken s = (inr tok, s1) ->
      fetch (searchRequest env memberId tok) (world s1) = (inr r, w) ->
      ok r = true -> jsonBody r = Some result ->
      getProp result "total" = inr (VNum 0) ->
      getMember env memberId s
      = (Resolved None, fetched s1 (searchRequest env memberId tok) w))
  /\ (forall (s s' : state W) f,
        getMember env memberId s = (Rejected f, s') ->
        exists tok s1 r w,
          getAccessToken s = (inr tok, s1)
          /\ fetch (searchRequest env memberId tok) (world s1) = (inr r, w)
          /\ ok r = false
          /\ f = mkFailure (status r) (statusText r))
  /\ (forall (s s1 : state W) tok r w,
        getAccessToken s = (inr tok, s1) ->
        fetch (searchRequest env memberId tok) (world s1) = (inr r, w) ->
        ok r = false ->
        getMember env memberId s
        = (Rejected (mkFailure (status r) (statusText r)),
           fetched s1 (searchRequest env memberId tok) w)).
Proof.
  split; [|split].
  - intros s s1 tok r w result E F Hok Hj Ht.
    now apply (getMember_total_zero s s1 memberId tok r w result (VNum 0)).
  - intros s s' f G.
    destruct (getAccessToken s) as [[x|tok] s1] eqn:E.
    + rewrite (getMember_no_token s s1 memberId x E) in G. discriminate.
    + destruct (fetch (searchRequest env memberId tok) (world s1))
        as [[x|r] w] eqn:F.
      * rewrite (getMember_no_response s s1 memberId tok x w E F) in G.
        discriminate.
      * destruct (ok r) eqn:Hok.
        -- exfalso.
           apply (getMember_ok_not_rejected s s1 memberId tok r w f E F Hok).
           now rewrite G.
        -- rewrite (getMember_not_ok s s1 memberId tok r w E F Hok) in G.
           inversion G; subst.
           exists tok, s1, r, w. repeat split; assumption.
  - intros s s1 tok r w. apply getMember_not_ok.
Qed.

(** C9. With a success status and a [total] other than [0], [getMember]
    reads [items[0]] and [variants[0]] without looking at what they are. When
    [items] is an empty list, or the first item's [variants] is an empty
    list, a [TypeError] escapes the executor: the lookup neither resolves
    (with [null] or a member) nor rejects with a [{code, description}]. When
    both reads find an object, it resolves with the fields read from them. *)
Theorem getMember_reads_first_unchecked (memberId : value) (s s1 : state W)
    (tok : value) (r : Response) (w : W) (result : value) (total : Z) :
  getAccessToken s = (inr tok, s1) ->
  fetch (searchRequest env memberId tok) (world s1) = (inr r, w) ->
  ok r = true -> jsonBody r = Some result ->
  getProp result "total" = inr (VNum total) -> total > 0 ->
  (getProp result "items" = inr (VArr []) ->
     getMember env memberId s
     = (Pending TypeError, fetched s1 (searchRequest env memberId tok) w))
  /\ (forall item rest,
        getProp result "items" = inr (VArr (VObj item :: rest)) ->
        assoc "variants" item = Some (VArr []) ->
        getMember env memberId s
        = (Pending TypeError, fetched s1 (searchRequest env memberId tok) w))
  /\ (forall item rest variant more,
        getProp result "items" = inr (VArr (VObj item :: rest)) ->
        assoc "variants" item = Some (VArr (VObj variant :: more)) ->
        getMember env memberId s
        = (Resolved (Some (mkMember (orUndefined (assoc "id" item))
                                    (orUndefined (assoc "email" item))
                                    (orUndefined (assoc "username" item))
                                    (orUndefined (assoc "name" variant)))),
           fetched s1 (searchRequest env memberId tok) w)).
Proof.
  intros E F Hok Hj Ht Hpos.
  assert (Hz : isZero (VNum total) = false).
  { cbn. apply Z.eqb_neq. lia. }
  repeat split.
  - intros Hi. unfold getMember, newPromise, bind, lift, json.
    rewrite E, (awaitFetch_run _ _ _ _ F), Hok, Hj, Ht, Hz, Hi. reflexivity.
  - intros item rest Hi Hv. unfold getMember, newPromise, bind, lift, json.
    rewrite E, (awaitFetch_run _ _ _ _ F), Hok, Hj, Ht, Hz, Hi.
    cbn. rewrite Hv. reflexivity.
  - intros item rest variant more Hi Hv.
    unfold getMember, newPromise, bind, lift, json.
    rewrite E, (awaitFetch_run _ _ _ _ F), Hok, Hj, Ht, Hz, Hi.
    cbn. rewrite Hv. reflexivity.
Qed.

(** ** Create, update, delete *)

Ltac steps :=
  unfold bind, lift, ret, throw, getWorld, awaitFetch;
  repeat (cbn [fst snd];
          match goal with
          | |- context [getAccessToken ?st] =>
              destruct (getAccessToken st) as [[?|?] ?] eqn:?
          | |- context [fetch ?rq ?wd] =>
              destruct (fetch rq wd) as [[?|?] ?] eqn:?
          | |- context [if ok ?rs then _ else _] => destruct (ok rs) eqn:?
          | |- context [json ?rs] => destruct (json rs) as [?|?] eqn:?
          end).

Ltac token_trace :=
  match goal with
  | E : getAccessToken ?s1 = (_, ?s2) |- _ =>
      let T := fresh "T" in
      pose proof (getAccessToken_trace s1) as T;
      rewrite E in T; cbn [snd] in T
  end.

Ltac close_trace :=
  cbn; token_trace;
  match goal with
  | T : trace _ = trace _ ++ _ |- _ => rewrite T, <- ?app_assoc
  end;
  eexists; split; [reflexivity|];
  match goal with
  | |- context [stale ?s] => destruct (stale s)
  end;
  repeat (apply Forall_cons || apply Forall_nil);
  unfold addresses; first [left; reflexivity | right; eauto].

Lemma updateMember_found_trace (memberId name email isVip : value)
    (s s1 : state W) (m : Member) :
  getMember env memberId s = (Resolved (Some m), s1) ->
  exists evs,
    trace (snd (updateMember env memberId name email isVip s)) = trace s1 ++ evs
    /\ Forall (addresses env PUT (id m)) evs.
Proof.
  intros G. unfold updateMember, newPromise, awaitThen. rewrite G.
  steps; close_trace.
Qed.

Lemma deleteMember_found_trace (memberId : value) (s s1 : state W) (m : Member) :
  getMember env memberId s = (Resolved (Some m), s1) ->
  exists evs,
    trace (snd (deleteMember env memberId s)) = trace s1 ++ evs
    /\ Forall (addresses env DELETE (id m)) evs.
Proof.
  intros G. unfold deleteMember, newPromise, awaitThen. rewrite G.
  steps; close_trace.
Qed.

Lemma createMember_found (memberId name email isVip : value)
    (s s1 : state W) (m : Member) :
  getMember env memberId s = (Resolved (Some m), s1) ->
  createMember env memberId name email isVip s = (Rejected (mkFailure 409 "Member already exists"), s1).
Proof.
  intros G. unfold createMember, newPromise, awaitThen. now rewrite G.
Qed.

Lemma updateMember_absent (memberId name email isVip : value) (s s1 : state W) :
  getMember env memberId s = (Resolved None, s1) ->
  updateMember env memberId name email isVip s = (Rejected (mkFailure 404 "No such member"), s1).
Proof.
  intros G. unfold updateMember, newPromise, awaitThen. now rewrite G.
Qed.

Lemma deleteMember_absent (memberId : value) (s s1 : state W) :
  getMember env memberId s = (Resolved None, s1) ->
  deleteMember env memberId s = (Rejected (mkFailure 404 "No such member"), s1).
Proof.
  intros G. unfold deleteMember, newPromise, awaitThen. now rewrite G.
Qed.

(** When the lookup did not find a member, update and delete stop in the
    state the lookup left. *)
Lemma updateMember_stops (memberId name email isVip : value) (s : state W) :
  (forall m, fst (getMember env memberId s) <> Resolved (Some m)) ->
  snd (updateMember env memberId name email isVip s)
  = snd (getMember env memberId s).
Proof.
  intros N. unfold updateMember, newPromise, awaitThen.
  destruct (getMember env memberId s) as [[[m|]|f|x] s1]; cbn in *;
    [now elim (N m) | reflexivity ..].
Qed.

Lemma deleteMember_stops (memberId : value) (s : state W) :
  (forall m, fst (getMember env memberId s) <> Resolved (Some m)) ->
  snd (deleteMember env memberId s) = snd (getMember env memberId s).
Proof.
  intros N. unfold deleteMember, newPromise, awaitThen.
  destruct (getMember env memberId s) as [[[m|]|f|x] s1]; cbn in *;
    [now elim (N m) | reflexivity ..].
Qed.

Lemma no_mutation_In (evs : list event) (rq : Request) :
  forallb (fun e => negb (isMutating e)) evs = true ->
  In (EvFetch rq) evs -> method rq = GET.
Proof.
  intros P I. rewrite forallb_forall in P. specialize (P _ I).
  cbn in P. now destruct (method rq).
Qed.

(** C2. When the lookup that [createMember] starts with resolves with a
    member, [createMember] rejects with [{code: 409, description: 'Member
    already exists'}] in the very state the lookup left, and nothing but the
    lookup (a grant at most, and its [GET]) has left the process: no creation
    request. The second of two creates for one memberId is this case, the
    lookup of the second create finding what the first one created. *)
Theorem createMember_conflict (memberId name email isVip : value)
    (s s1 : state W) (m : Member) :
  getMember env memberId s = (Resolved (Some m), s1) ->
  createMember env memberId name email isVip s
  = (Rejected (mkFailure 409 "Member already exists"), s1)
  /\ forallb (fun e => negb (isMutating e))
       (since s (snd (createMember env memberId name email isVip s))) = true.
Proof.
  intros G. rewrite (createMember_found memberId name email isVip s s1 m G).
  split; [reflexivity|]. cbn [snd].
  pose proof (getMember_no_mutation s memberId) as N. now rewrite G in N.
Qed.

(** C3. When the lookup resolves with [null], [updateMember] and
    [deleteMember] both reject with [{code: 404, description: 'No such
    member'}] in the very state the lookup left, and nothing but the lookup
    has left the process: no [PUT], no [DELETE]. *)
Theorem update_delete_absent (memberId name email isVip : value) (s s1 : state W) :
  getMember env memberId s = (Resolved None, s1) ->
  updateMember env memberId name email isVip s
  = (Rejected (mkFailure 404 "No such member"), s1)
  /\ deleteMember env memberId s
     = (Rejected (mkFailure 404 "No such member"), s1)
  /\ forallb (fun e => negb (isMutating e))
       (since s (snd (updateMember env memberId name email isVip s))) = true
  /\ forallb (fun e => negb (isMutating e))
       (since s (snd (deleteMember env memberId s))) = true.
Proof.
  intros G.
  rewrite (updateMember_absent memberId name email isVip s s1 G).
  rewrite (deleteMember_absent memberId s s1 G).
  pose proof (getMember_no_mutation s memberId) as N. rewrite G in N.
  repeat split; assumption.
Qed.

Lemma addressed_In (mt : Method) (i : value) (evs : list event) (rq : Request) :
  Forall (addresses env mt i) evs -> In (EvFetch rq) evs ->
  method rq = mt /\ url rq = MemberIdUrl (UMBRACO_HOST env) i.
Proof.
  intros F I. rewrite Forall_forall in F.
  destruct (F _ I) as [E | [tok [body E]]]; [discriminate|].
  inversion E; subst. now split.
Qed.

(** C6. Every request other than a [GET] that [updateMember] or
    [deleteMember] sends is addressed to [member.id], where [member] is what
    the lookup by memberId at the start of that same call resolved with: the
    [PUT] of an update and the [DELETE] of a delete go to
    [.../member/${member.id}] and nowhere else. *)
Theorem mutation_addressed_by_lookup (memberId name email isVip : value)
    (s : state W) (rq : Request) :
  (In (EvFetch rq) (since s (snd (updateMember env memberId name email isVip s))) ->
   method rq <> GET ->
   exists m s1,
     getMember env memberId s = (Resolved (Some m), s1)
     /\ method rq = PUT
     /\ url rq = MemberIdUrl (UMBRACO_HOST env) (id m))
  /\ (In (EvFetch rq) (since s (snd (deleteMember env memberId s))) ->
      method rq <> GET ->
      exists m s1,
        getMember env memberId s = (Resolved (Some m), s1)
        /\ method rq = DELETE
        /\ url rq = MemberIdUrl (UMBRACO_HOST env) (id m)).
Proof.
  destruct (getMember_trace s memberId) as [ev0 [T0 P0]].
  split; intros I NG.
  - destruct (getMember env memberId s) as [[[m|]|f|x] s1] eqn:G;
      [| rewrite updateMember_stops, G in I by (rewrite G; discriminate);
         rewrite (since_app _ _ _ T0) in I;
         elim NG; exact (no_mutation_In ev0 rq P0 I) ..].
    destruct (updateMember_found_trace memberId name email isVip s s1 m G)
      as [evs [T A]].
    cbn [snd] in T0. rewrite T0, <- app_assoc in T.
    rewrite (since_app _ _ _ T) in I. apply in_app_or in I as [I|I].
    + elim NG. exact (no_mutation_In ev0 rq P0 I).
    + destruct (addressed_In PUT (id m) evs rq A I) as [Hm Hu].
      exists m, s1. repeat split; assumption.
  - destruct (getMember env memberId s) as [[[m|]|f|x] s1] eqn:G;
      [| rewrite deleteMember_stops, G in I by (rewrite G; discriminate);
         rewrite (since_app _ _ _ T0) in I;
         elim NG; exact (no_mutation_In ev0 rq P0 I) ..].
    destruct (deleteMember_found_trace memberId s s1 m G) as [evs [T A]].
    cbn [snd] in T0. rewrite T0, <- app_assoc in T.
    rewrite (since_app _ _ _ T) in I. apply in_app_or in I as [I|I].
    + elim NG. exact (no_mutation_In ev0 rq P0 I).
    + destruct (addressed_In DELETE (id m) evs rq A I) as [Hm Hu].
      exists m, s1. repeat split; assumption.
Qed.

(** ** The request translator *)

(** C5. [umbracoMemberModel] is defined on every (memberId, name, email,
    isVip) and never throws. Its [groups] are the regular group, followed by
    the VIP group exactly when [isVip] holds (for a boolean [isVip]: when it
    is [true]) and by nothing otherwise; [isApproved] is always [true]; and
    [variants] is the single record [{culture: null, segment: null, name}]. *)
Theorem umbracoMemberModel_shape (now : string) (memberId name email isVip : value) :
  let m := umbracoMemberModel env now memberId name email isVip in
  let regular := envValue (UMBRACO_MEMBER_GROUP_REGULAR_ID env) in
  let vip := envValue (UMBRACO_MEMBER_GROUP_VIP_ID env) in
  exists groups,
    getProp m "groups" = inr (VArr groups)
    /\ In regular groups
    /\ groups = regular :: (if truthy isVip then [vip] else [])
    /\ (vip <> regular -> (In vip groups <-> truthy isVip = true))
    /\ (forall b, isVip = VBool b -> vip <> regular ->
          (In vip groups <-> b = true))
    /\ getProp m "isApproved" = inr (VBool true)
    /\ getProp m "variants"
       = inr (VArr [VObj [("culture", VNull); ("segment", VNull); ("name", name)]])
    /\ getProp m "username" = inr memberId
    /\ getProp m "email" = inr email.
Proof.
  intros m regular vip.
  assert (V : vip <> regular -> (In vip (regular :: (if truthy isVip then [vip] else []))
                                <-> truthy isVip = true)).
  { intros D. destruct (truthy isVip); cbn; split; intros I; auto.
    - destruct I as [I|[]]. now elim D.
    - discriminate. }
  exists (regular :: (if truthy isVip then [vip] else [])).
  split; [|split; [|split; [|split; [|split]]]].
  - unfold m, umbracoMemberModel. cbn. now destruct (truthy isVip).
  - now left.
  - reflexivity.
  - exact V.
  - intros b E D. subst isVip. exact (V D).
  - repeat split; reflexivity.
Qed.

(** ** The facade *)

Lemma postMember_falsy (data : list (string * value)) (s : state W) :
  truthy (orUndefined (assoc "email" data)) = false
  \/ truthy (orUndefined (assoc "name" data)) = false
  \/ truthy (orUndefined (assoc "memberId" data)) = false ->
  postMember env (VObj data) s = (Replied 400 (Some malformed), s).
Proof.
  intros F. unfold postMember, handler, bind, lift, ret. cbn [getProp].
  destruct F as [F|[F|F]]; rewrite F; cbn [negb orb];
    rewrite ?orb_true_r; reflexivity.
Qed.

(** C8. A [POST /member] whose body lacks [email], [name] or [memberId] is
    answered with status 400, and the process is in the state it was in: no
    grant was requested and no request was sent downstream. *)
Theorem postMember_missing_field (data : list (string * value)) (s : state W) :
  assoc "email" data = None \/ assoc "name" data = None
  \/ assoc "memberId" data = None ->
  postMember env (VObj data) s = (Replied 400 (Some malformed), s)
  /\ since s (snd (postMember env (VObj data) s)) = [].
Proof.
  intros F.
  assert (P : postMember env (VObj data) s = (Replied 400 (Some malformed), s)).
  { apply postMember_falsy. destruct F as [F|[F|F]]; rewrite F; auto. }
  rewrite P. split; [reflexivity | apply since_refl].
Qed.

(** ** A failure response without a JSON body *)

(** After a lookup that found nothing, a creation answered with a
    non-success status and a body that is not JSON never settles:
    [response.json()] throws before [reject] is reached. *)
Lemma createMember_not_json (memberId name email isVip : value)
    (s s1 s2 : state W) (tok : value) (r : Response) (w : W) :
  let s1' := mkState (tokenSet s1) (snd (uuidV4 (world s1))) (trace s1) in
  let rq :=
    mkRequest POST (MemberUrl (UMBRACO_HOST env)) tok
      (Some (setProp
               (umbracoMemberModel env (toUTCString (world s1)) memberId name email isVip)
               "password" (VStr (fst (uuidV4 (world s1)))))) in
  getMember env memberId s = (Resolved None, s1) ->
  getAccessToken s1' = (inr tok, s2) ->
  fetch rq (world s2) = (inr r, w) ->
  ok r = false -> jsonBody r = None ->
  createMember env memberId name email isVip s
  = (Pending SyntaxError, fetched s2 rq w).
Proof.
  intros s1' rq G E F Hok Hj.
  unfold createMember, newPromise, awaitThen. rewrite G.
  unfold bind, getWorld, callUuid, lift, json. cbn.
  destruct (uuidV4 (world s1)) as [u w1] eqn:U.
  subst s1' rq. cbn in *. rewrite E.
  rewrite (awaitFetch_run _ _ _ _ F), Hok, Hj. reflexivity.
Qed.

(** The same creation, answered with a non-success status and a JSON body,
    rejects with the status and its text. *)
Lemma createMember_json_failure (memberId name email isVip : value)
    (s s1 s2 : state W) (tok : value) (r : Response) (w : W) (details : value) :
  let s1' := mkState (tokenSet s1) (snd (uuidV4 (world s1))) (trace s1) in
  let rq :=
    mkRequest POST (MemberUrl (UMBRACO_HOST env)) tok
      (Some (setProp
               (umbracoMemberModel env (toUTCString (world s1)) memberId name email isVip)
               "password" (VStr (fst (uuidV4 (world s1)))))) in
  getMember env memberId s = (Resolved None, s1) ->
  getAccessToken s1' = (inr tok, s2) ->
  fetch rq (world s2) = (inr r, w) ->
  ok r = false -> jsonBody r = Some details ->
  createMember env memberId name email isVip s
  = (Rejected (mkFailure (status r) (statusText r)), fetched s2 rq w).
Proof.
  intros s1' rq G E F Hok Hj.
  unfold createMember, newPromise, awaitThen. rewrite G.
  unfold bind, getWorld, callUuid, lift, json. cbn.
  destruct (uuidV4 (world s1)) as [u w1] eqn:U.
  subst s1' rq. cbn in *. rewrite E.
  rewrite (awaitFetch_run _ _ _ _ F), Hok, Hj. reflexivity.
Qed.

(** ** The token provider, from the outside *)

Lemma getAccessToken_cases (s : state W) :
  (stale s = false /\ exists ts, tokenSet s = Some ts
     /\ getAccessToken s = (inr (access_token ts), s))
  \/ (stale s = true /\ exists ts w,
        grant (world s) = (inr ts, w)
        /\ getAccessToken s
           = (inr (access_token ts), mkState (Some ts) w (trace s ++ [EvGrant])))
  \/ (stale s = true /\ exists x w,
        grant (world s) = (inl x, w)
        /\ getAccessToken s
           = (inl x, mkState (tokenSet s) w (trace s ++ [EvGrant]))).
Proof.
  destruct (stale s) eqn:Hst.
  - right. destruct (grant (world s)) as [[x|ts] w] eqn:Hg.
    + right. split; [reflexivity|]. exists x, w. split; [reflexivity|].
      now apply getAccessToken_refused.
    + left. split; [reflexivity|]. exists ts, w. split; [reflexivity|].
      now apply getAccessToken_granted.
  - left. split; [reflexivity|].
    destruct (stale_false s Hst) as [ts [Hts Hexp]].
    exists ts. split; [assumption|]. now apply getAccessToken_fresh.
Qed.

(** X1. [getAccessToken] throws only what [client.grant] threw, and only
    when it had to ask for a grant: it has no failure of its own. When it
    returns, what it returns is the [access_token] of the token set that
    [tokenSet] holds from then on. *)
Theorem getAccessToken_outcome (s s' : state W) :
  (forall x, getAccessToken s = (inl x, s') ->
     stale s = true /\ grant (world s) = (inl x, world s'))
  /\ (forall v, getAccessToken s = (inr v, s') ->
        exists ts, tokenSet s' = Some ts /\ v = access_token ts).
Proof.
  split.
  - intros x E.
    destruct (getAccessToken_cases s)
      as [(_ & ts & _ & G) | [(_ & ts & w & _ & G) | (St & y & w & Hg & G)]];
      rewrite G in E; try discriminate.
    inversion E; subst. now split.
  - intros v E.
    destruct (getAccessToken_cases s)
      as [(_ & ts & Hts & G) | [(_ & ts & w & _ & G) | (St & y & w & Hg & G)]];
      rewrite G in E; try discriminate; inversion E; subst; exists ts;
      now split.
Qed.

Lemma getAccessToken_returned (s s' : state W) (v : value) :
  getAccessToken s = (inr v, s') ->
  exists ts, tokenSet s' = Some ts /\ v = access_token ts.
Proof.
  intros E.
  destruct (getAccessToken_cases s)
    as [(_ & ts & Hts & G) | [(_ & ts & w & _ & G) | (St & y & w & Hg & G)]];
    rewrite G in E; try discriminate; inversion E; subst; exists ts;
    now split.
Qed.

(** The cached token set moves only with a grant, and is never dropped. *)
Lemma getAccessToken_tokenSet (s : state W) :
  (stale s = false -> tokenSet (snd (getAccessToken s)) = tokenSet s)
  /\ (tokenSet s <> None -> tokenSet (snd (getAccessToken s)) <> None).
Proof.
  destruct (getAccessToken_cases s)
    as [(St & ts & Hts & G) | [(St & ts & w & _ & G) | (St & y & w & Hg & G)]];
    rewrite G; cbn [snd tokenSet]; split; intros; congruence.
Qed.

(** ** One authorised call *)

Lemma send_trace (rq : value -> Request) (s : state W) :
  trace (snd (send rq s)) = trace s ++ call rq s.
Proof.
  pose proof (getAccessToken_trace s) as T. unfold send, call.
  destruct (getAccessToken s) as [[x|tok] s1]; cbn [fst snd] in *.
  - now rewrite app_nil_r.
  - destruct (fetch (rq tok) (world s1)) as [[x|r] w]; cbn;
      now rewrite T, <- app_assoc.
Qed.

Lemma send_tokenSet (rq : value -> Request) (s : state W) :
  tokenSet (snd (send rq s)) = tokenSet (snd (getAccessToken s)).
Proof.
  unfold send. destruct (getAccessToken s) as [[x|tok] s1]; [reflexivity|].
  now destruct (fetch (rq tok) (world s1)) as [[x|r] w].
Qed.

Lemma getMember_events (s : state W) (memberId : value) :
  trace (snd (getMember env memberId s))
  = trace s ++ call (searchRequest env memberId) s.
Proof.
  pose proof (getAccessToken_trace s) as T. unfold call.
  destruct (getAccessToken s) as [[x|tok] s1] eqn:E; cbn [fst snd] in *.
  - rewrite (getMember_no_token s s1 memberId x E). cbn [snd].
    now rewrite app_nil_r.
  - destruct (fetch (searchRequest env memberId tok) (world s1)) as [[x|r] w] eqn:F.
    + rewrite (getMember_no_response s s1 memberId tok x w E F). cbn.
      now rewrite T, <- app_assoc.
    + rewrite (getMember_state s s1 memberId tok r w E F). cbn.
      now rewrite T, <- app_assoc.
Qed.

Lemma getMember_tokenSet (s : state W) (memberId : value) :
  tokenSet (snd (getMember env memberId s)) = tokenSet (snd (getAccessToken s)).
Proof.
  destruct (getAccessToken s) as [[x|tok] s1] eqn:E; cbn [fst snd] in *.
  - now rewrite (getMember_no_token s s1 memberId x E).
  - destruct (fetch (searchRequest env memberId tok) (world s1)) as [[x|r] w] eqn:F.
    + now rewrite (getMember_no_response s s1 memberId tok x w E F).
    + now rewrite (getMember_state s s1 memberId tok r w E F).
Qed.

(** ** The operations are their flat reading *)

Lemma callUuid_run (s : state W) :
  callUuid s = (inr (fst (uuidV4 (world s))), afterUuid s).
Proof.
  unfold callUuid, afterUuid. now destruct (uuidV4 (world s)).
Qed.

Ltac flat :=
  unfold send, answer, bind, getWorld, lift, ret; cbn [fst snd];
  repeat match goal with
         | |- context [getAccessToken ?st] =>
             destruct (getAccessToken st) as [[?|?] ?]; cbn [fst snd]
         | |- context [awaitFetch ?rq ?st] =>
             unfold awaitFetch; cbn [world tokenSet trace];
             destruct (fetch rq (world st)) as [[?|?] ?]; cbn [fst snd]
         | |- context [if ok ?rs then _ else _] => destruct (ok rs)
         | |- context [json ?rs] => destruct (json rs)
         end;
  try reflexivity.

Lemma createMember_flat (memberId name email isVip : value) (s : state W) :
  createMember env memberId name email isVip s
  = match getMember env memberId s with
    | (Resolved None, s1) =>
        send (createRequest env memberId name email isVip s1) (afterUuid s1)
    | (Resolved (Some _), s1) =>
        (Rejected (mkFailure 409 "Member already exists"), s1)
    | (Rejected f, s1) => (Rejected f, s1)
    | (Pending x, s1) => (Pending x, s1)
    end.
Proof.
  unfold createMember, newPromise, awaitThen.
  destruct (getMember env memberId s) as [[[m|]|f|x] s1]; try reflexivity.
  unfold bind at 1, getWorld. unfold bind at 1. rewrite callUuid_run.
  unfold createRequest. generalize (afterUuid s1). intros s2. flat.
Qed.

Lemma updateMember_flat (memberId name email isVip : value) (s : state W) :
  updateMember env memberId name email isVip s
  = match getMember env memberId s with
    | (Resolved None, s1) => (Rejected (mkFailure 404 "No such member"), s1)
    | (Resolved (Some m), s1) =>
        send (updateRequest env memberId name email isVip m s1) s1
    | (Rejected f, s1) => (Rejected f, s1)
    | (Pending x, s1) => (Pending x, s1)
    end.
Proof.
  unfold updateMember, newPromise, awaitThen.
  destruct (getMember env memberId s) as [[[m|]|f|x] s1]; try reflexivity.
  unfold updateRequest. flat.
Qed.

Lemma deleteMember_flat (memberId : value) (s : state W) :
  deleteMember env memberId s
  = match getMember env memberId s with
    | (Resolved None, s1) => (Rejected (mkFailure 404 "No such member"), s1)
    | (Resolved (Some m), s1) => send (deleteRequest env m) s1
    | (Rejected f, s1) => (Rejected f, s1)
    | (Pending x, s1) => (Pending x, s1)
    end.
Proof.
  unfold deleteMember, newPromise, awaitThen.
  destruct (getMember env memberId s) as [[[m|]|f|x] s1]; try reflexivity.
  unfold deleteRequest. flat.
Qed.

Lemma send_answered (rq : value -> Request) (s s' : state W) (r : Response) :
  answered rq s s' r -> send rq s = (answer r, s').
Proof.
  intros (tok & s1 & w & E & F & ->). unfold send. now rewrite E, F.
Qed.

Lemma send_resolved (rq : value -> Request) (s s' : state W) (b : bool) :
  send rq s = (Resolved b, s')
  <-> b = true /\ exists r, answered rq s s' r /\ ok r = true.
Proof.
  split.
  - unfold send, answer, answered.
    destruct (getAccessToken s) as [[x|tok] s1] eqn:E; [discriminate|].
    destruct (fetch (rq tok) (world s1)) as [[x|r] w] eqn:F; [discriminate|].
    destruct (ok r) eqn:Hok; [|destruct (json r); discriminate].
    intros Q. inversion Q; subst. split; [reflexivity|].
    exists r. split; [|assumption]. exists tok, s1, w. auto.
  - intros (-> & r & A & Hok). rewrite (send_answered rq s s' r A).
    unfold answer. now rewrite Hok.
Qed.

Lemma send_rejected (rq : value -> Request) (s s' : state W) (f : failure) :
  send rq s = (Rejected f, s')
  <-> exists r, answered rq s s' r /\ ok r = false /\ jsonBody r <> None
                /\ f = mkFailure (status r) (statusText r).
Proof.
  split.
  - unfold send, answer, answered, json.
    destruct (getAccessToken s) as [[x|tok] s1] eqn:E; [discriminate|].
    destruct (fetch (rq tok) (world s1)) as [[x|r] w] eqn:F; [discriminate|].
    destruct (ok r) eqn:Hok; [discriminate|].
    destruct (jsonBody r) as [d|] eqn:J; [|discriminate].
    intros Q. inversion Q; subst.
    exists r. split; [exists tok, s1, w; auto|].
    rewrite J. repeat split; congruence.
  - intros (r & A & Hok & J & ->). rewrite (send_answered rq s s' r A).
    unfold answer, json. rewrite Hok.
    destruct (jsonBody r); [reflexivity | now elim J].
Qed.

(** ** When the operations resolve and when they reject *)

(** X2. A lookup that rejects makes the operation reject with the same
    [{code, description}], and a lookup that never settles leaves the
    operation unsettled; either way the operation stops in the state the
    lookup left, having sent nothing of its own. *)
Theorem lookup_failure_propagates (memberId name email isVip : value)
    (s s1 : state W) :
  (forall f, getMember env memberId s = (Rejected f, s1) ->
     createMember env memberId name email isVip s = (Rejected f, s1)
     /\ updateMember env memberId name email isVip s = (Rejected f, s1)
     /\ deleteMember env memberId s = (Rejected f, s1))
  /\ (forall x, getMember env memberId s = (Pending x, s1) ->
        createMember env memberId name email isVip s = (Pending x, s1)
        /\ updateMember env memberId name email isVip s = (Pending x, s1)
        /\ deleteMember env memberId s = (Pending x, s1)).
Proof.
  split; intros y G;
    rewrite createMember_flat, updateMember_flat, deleteMember_flat, G;
    repeat split.
Qed.

(** X3. [createMember] resolves, and then with [true], exactly when the
    lookup resolved with [null] and the creation request, sent with the
    token fetched after it, was answered with a success status. *)
Theorem createMember_resolved_iff (memberId name email isVip : value)
    (s s' : state W) (b : bool) :
  createMember env memberId name email isVip s = (Resolved b, s')
  <-> b = true
      /\ exists s1 r,
           getMember env memberId s = (Resolved None, s1)
           /\ answered (createRequest env memberId name email isVip s1)
                (afterUuid s1) s' r
           /\ ok r = true.
Proof.
  rewrite createMember_flat.
  destruct (getMember env memberId s) as [[[m|]|f|x] s1].
  - split; [discriminate|]. intros (_ & s2 & r & Q & _). discriminate.
  - rewrite send_resolved. split.
    + intros (-> & r & A & Hok). split; [reflexivity|]. now exists s1, r.
    + intros (-> & s2 & r & Q & A & Hok). inversion Q; subst.
      split; [reflexivity|]. now exists r.
  - split; [discriminate|]. intros (_ & s2 & r & Q & _). discriminate.
  - split; [discriminate|]. intros (_ & s2 & r & Q & _). discriminate.
Qed.

(** X4. [updateMember] and [deleteMember] resolve, and then with [true],
    exactly when the lookup resolved with a member and the [PUT] (the
    [DELETE]) addressed to that member's id was answered with a success
    status. *)
Theorem update_delete_resolved_iff (memberId name email isVip : value)
    (s s' : state W) (b : bool) :
  (updateMember env memberId name email isVip s = (Resolved b, s')
   <-> b = true
       /\ exists m s1 r,
            getMember env memberId s = (Resolved (Some m), s1)
            /\ answered (updateRequest env memberId name email isVip m s1) s1 s' r
            /\ ok r = true)
  /\ (deleteMember env memberId s = (Resolved b, s')
      <-> b = true
          /\ exists m s1 r,
               getMember env memberId s = (Resolved (Some m), s1)
               /\ answered (deleteRequest env m) s1 s' r
               /\ ok r = true).
Proof.
  rewrite updateMember_flat, deleteMember_flat.
  destruct (getMember env memberId s) as [[[m|]|f|x] s1].
  - rewrite !send_resolved. split; split.
    + intros (-> & r & A & Hok). split; [reflexivity|]. now exists m, s1, r.
    + intros (-> & m' & s2 & r & Q & A & Hok). inversion Q; subst.
      split; [reflexivity|]. now exists r.
    + intros (-> & r & A & Hok). split; [reflexivity|]. now exists m, s1, r.
    + intros (-> & m' & s2 & r & Q & A & Hok). inversion Q; subst.
      split; [reflexivity|]. now exists r.
  - split; (split; [discriminate|]); intros (_ & m' & s2 & r & Q & _);
      discriminate.
  - split; (split; [discriminate|]); intros (_ & m' & s2 & r & Q & _);
      discriminate.
  - split; (split; [discriminate|]); intros (_ & m' & s2 & r & Q & _);
      discriminate.
Qed.

(** X5. [createMember] rejects in one of three ways and no other: with 409
    when the lookup found a member; with the lookup's own failure; or, the
    lookup having found nothing, with the status and status text of a
    creation request that was answered with a non-success status and a JSON
    body. *)
Theorem createMember_rejected_iff (memberId name email isVip : value)
    (s s' : state W) (f : failure) :
  createMember env memberId name email isVip s = (Rejected f, s')
  <-> (exists m, getMember env memberId s = (Resolved (Some m), s')
                 /\ f = mkFailure 409 "Member already exists")
      \/ getMember env memberId s = (Rejected f, s')
      \/ (exists s1 r,
            getMember env memberId s = (Resolved None, s1)
            /\ answered (createRequest env memberId name email isVip s1)
                 (afterUuid s1) s' r
            /\ ok r = false /\ jsonBody r <> None
            /\ f = mkFailure (status r) (statusText r)).
Proof.
  rewrite createMember_flat.
  destruct (getMember env memberId s) as [[[m|]|f0|x] s1].
  - split.
    + intros Q. inversion Q; subst. left. now exists m.
    + intros [(m' & Q & ->) | [Q | (s2 & r & Q & _)]];
        [inversion Q; subst; reflexivity | discriminate | discriminate].
  - rewrite send_rejected. split.
    + intros (r & A & Hok & J & ->). right. right. now exists s1, r.
    + intros [(m' & Q & _) | [Q | (s2 & r & Q & A & Hok & J & ->)]];
        [discriminate | discriminate |].
      inversion Q; subst. now exists r.
  - split.
    + intros Q. inversion Q; subst. right. now left.
    + intros [(m' & Q & _) | [Q | (s2 & r & Q & _)]];
        [discriminate | inversion Q; subst; reflexivity | discriminate].
  - split; [discriminate|].
    intros [(m' & Q & _) | [Q | (s2 & r & Q & _)]]; discriminate.
Qed.

(** X6. [updateMember] rejects in one of three ways and no other: with 404
    when the lookup resolved with [null]; with the lookup's own failure; or,
    the lookup having found the member, with the status and status text of a
    [PUT] that was answered with a non-success status and a JSON body. *)
Theorem updateMember_rejected_iff (memberId name email isVip : value)
    (s s' : state W) (f : failure) :
  updateMember env memberId name email isVip s = (Rejected f, s')
  <-> (getMember env memberId s = (Resolved None, s')
       /\ f = mkFailure 404 "No such member")
      \/ getMember env memberId s = (Rejected f, s')
      \/ (exists m s1 r,
            getMember env memberId s = (Resolved (Some m), s1)
            /\ answered (updateRequest env memberId name email isVip m s1) s1 s' r
            /\ ok r = false /\ jsonBody r <> None
            /\ f = mkFailure (status r) (statusText r)).
Proof.
  rewrite updateMember_flat.
  destruct (getMember env memberId s) as [[[m|]|f0|x] s1].
  - rewrite send_rejected. split.
    + intros (r & A & Hok & J & ->). right. right. now exists m, s1, r.
    + intros [(Q & _) | [Q | (m' & s2 & r & Q & A & Hok & J & ->)]];
        [discriminate | discriminate |].
      inversion Q; subst. now exists r.
  - split.
    + intros Q. inversion Q; subst. now left.
    + intros [(Q & ->) | [Q | (m' & s2 & r & Q & _)]];
        [inversion Q; subst; reflexivity | discriminate | discriminate].
  - split.
    + intros Q. inversion Q; subst. right. now left.
    + intros [(Q & _) | [Q | (m' & s2 & r & Q & _)]];
        [discriminate | inversion Q; subst; reflexivity | discriminate].
  - split; [discriminate|].
    intros [(Q & _) | [Q | (m' & s2 & r & Q & _)]]; discriminate.
Qed.

(** X7. [deleteMember] rejects in one of three ways and no other: with 404
    when the lookup resolved with [null]; with the lookup's own failure; or,
    the lookup having found the member, with the status and status text of a
    [DELETE] that was answered with a non-success status and a JSON body. *)
Theorem deleteMember_rejected_iff (memberId : value) (s s' : state W) (f : failure) :
  deleteMember env memberId s = (Rejected f, s')
  <-> (getMember env memberId s = (Resolved None, s')
       /\ f = mkFailure 404 "No such member")
      \/ getMember env memberId s = (Rejected f, s')
      \/ (exists m s1 r,
            getMember env memberId s = (Resolved (Some m), s1)
            /\ answered (deleteRequest env m) s1 s' r
            /\ ok r = false /\ jsonBody r <> None
            /\ f = mkFailure (status r) (statusText r)).
Proof.
  rewrite deleteMember_flat.
  destruct (getMember env memberId s) as [[[m|]|f0|x] s1].
  - rewrite send_rejected. split.
    + intros (r & A & Hok & J & ->). right. right. now exists m, s1, r.
    + intros [(Q & _) | [Q | (m' & s2 & r & Q & A & Hok & J & ->)]];
        [discriminate | discriminate |].
      inversion Q; subst. now exists r.
  - split.
    + intros Q. inversion Q; subst. now left.
    + intros [(Q & ->) | [Q | (m' & s2 & r & Q & _)]];
        [inversion Q; subst; reflexivity | discriminate | discriminate].
  - split.
    + intros Q. inversion Q; subst. right. now left.
    + intros [(Q & _) | [Q | (m' & s2 & r & Q & _)]];
        [discriminate | inversion Q; subst; reflexivity | discriminate].
  - split; [discriminate|].
    intros [(Q & _) | [Q | (m' & s2 & r & Q & _)]]; discriminate.
Qed.

(** ** What the operations send *)

Lemma call_In (rq : value -> Request) (s : state W) (r : Request) :
  In (EvFetch r) (call rq s) ->
  exists tok s1, getAccessToken s = (inr tok, s1) /\ r = rq tok.
Proof.
  unfold call. intros I. apply in_app_or in I as [I|I].
  - destruct (stale s); [destruct I as [I|[]]; discriminate | destruct I].
  - destruct (getAccessToken s) as [[x|tok] s1]; cbn [fst] in I; [destruct I|].
    destruct I as [I|[]]. inversion I. now exists tok, s1.
Qed.

Lemma call_grants (rq : value -> Request) (s : state W) :
  grants (call rq s) = if stale s then 1%nat else 0%nat.
Proof.
  unfold call, grants. rewrite filter_app, length_app.
  destruct (stale s); destruct (fst (getAccessToken s)); reflexivity.
Qed.

Lemma call_requests (rq : value -> Request) (s : state W) :
  (List.length (requests (call rq s)) <= 1)%nat.
Proof.
  unfold call, requests. rewrite filter_app, length_app.
  destruct (stale s); destruct (fst (getAccessToken s)); cbn; lia.
Qed.

Lemma call_mutations (rq : value -> Request) (s : state W) :
  (List.length (mutations (call rq s)) <= 1)%nat.
Proof.
  unfold call, mutations. rewrite filter_app, length_app.
  destruct (stale s); destruct (fst (getAccessToken s)); cbn;
    try destruct (method _); cbn; lia.
Qed.

Lemma search_mutations (s : state W) (memberId : value) :
  mutations (call (searchRequest env memberId) s) = [].
Proof.
  unfold call, mutations. rewrite filter_app.
  destruct (stale s); destruct (fst (getAccessToken s)); reflexivity.
Qed.

(** The events of an operation: those of its lookup, then those of its own
    call when it gets that far. *)
Lemma createMember_events (memberId name email isVip : value) (s : state W) :
  since s (snd (createMember env memberId name email isVip s))
  = call (searchRequest env memberId) s
    ++ match getMember env memberId s with
       | (Resolved None, s1) =>
           call (createRequest env memberId name email isVip s1) (afterUuid s1)
       | _ => []
       end.
Proof.
  apply since_app. pose proof (getMember_events s memberId) as T.
  rewrite createMember_flat.
  destruct (getMember env memberId s) as [[[m|]|f|x] s1]; cbn [snd] in *;
    rewrite ?app_nil_r; try exact T.
  rewrite send_trace. cbn [afterUuid trace]. now rewrite T, app_assoc.
Qed.

Lemma updateMember_events (memberId name email isVip : value) (s : state W) :
  since s (snd (updateMember env memberId name email isVip s))
  = call (searchRequest env memberId) s
    ++ match getMember env memberId s with
       | (Resolved (Some m), s1) =>
           call (updateRequest env memberId name email isVip m s1) s1
       | _ => []
       end.
Proof.
  apply since_app. pose proof (getMember_events s memberId) as T.
  rewrite updateMember_flat.
  destruct (getMember env memberId s) as [[[m|]|f|x] s1]; cbn [snd] in *;
    rewrite ?app_nil_r; try exact T.
  rewrite send_trace. now rewrite T, app_assoc.
Qed.

Lemma deleteMember_events (memberId : value) (s : state W) :
  since s (snd (deleteMember env memberId s))
  = call (searchRequest env memberId) s
    ++ match getMember env memberId s with
       | (Resolved (Some m), s1) => call (deleteRequest env m) s1
       | _ => []
       end.
Proof.
  apply since_app. pose proof (getMember_events s memberId) as T.
  rewrite deleteMember_flat.
  destruct (getMember env memberId s) as [[[m|]|f|x] s1]; cbn [snd] in *;
    rewrite ?app_nil_r; try exact T.
  rewrite send_trace. now rewrite T, app_assoc.
Qed.

(** X8. A lookup sends at most one request and never a mutating one. What
    it sends is the [GET] on the filter URL for its memberId, without a
    body, and it carries the access token of the token set held when the
    lookup ends. A lookup whose token could not be had sends nothing. *)
Theorem getMember_sends_one_get (memberId : value) (s : state W) :
  let evs := since s (snd (getMember env memberId s)) in
  (List.length (requests evs) <= 1)%nat
  /\ mutations evs = []
  /\ (forall x, fst (getAccessToken s) = inl x -> requests evs = [])
  /\ (forall rq, In (EvFetch rq) evs ->
        rq = mkRequest GET (FilterMemberUrl (UMBRACO_HOST env) memberId)
               (bearer rq) None
        /\ exists ts, tokenSet (snd (getMember env memberId s)) = Some ts
                      /\ bearer rq = access_token ts).
Proof.
  intros evs. subst evs. rewrite (since_app _ _ _ (getMember_events s memberId)).
  split; [apply call_requests|]. split; [apply search_mutations|]. split.
  - intros x E. unfold call, requests. rewrite filter_app, E.
    now destruct (stale s).
  - intros rq I. apply call_In in I as (tok & s1 & E & ->).
    split; [reflexivity|]. rewrite getMember_tokenSet, E. cbn [snd].
    exact (getAccessToken_returned s s1 tok E).
Qed.

(** X9. Whatever happens, [createMember], [updateMember] and [deleteMember]
    each send at most one mutating request, at most two requests in all
    (the lookup's and their own), and ask for at most two grants. *)
Theorem one_mutation_per_operation (memberId name email isVip : value)
    (s : state W) :
  let bounded (evs : list event) :=
    (List.length (mutations evs) <= 1)%nat
    /\ (List.length (requests evs) <= 2)%nat
    /\ (grants evs <= 2)%nat in
  bounded (since s (snd (createMember env memberId name email isVip s)))
  /\ bounded (since s (snd (updateMember env memberId name email isVip s)))
  /\ bounded (since s (snd (deleteMember env memberId s))).
Proof.
  intros bounded. subst bounded. cbv beta.
  rewrite createMember_events, updateMember_events, deleteMember_events.
  pose proof (call_requests (searchRequest env memberId) s) as R0.
  pose proof (call_grants (searchRequest env memberId) s) as G0.
  assert (G0' : (grants (call (searchRequest env memberId) s) <= 1)%nat)
    by (rewrite G0; destruct (stale s); lia).
  assert (B : forall rq (s1 : state W),
             (List.length (mutations (call rq s1)) <= 1)%nat
             /\ (List.length (requests (call rq s1)) <= 1)%nat
             /\ (grants (call rq s1) <= 1)%nat).
  { intros rq s1. split; [apply call_mutations|]. split; [apply call_requests|].
    rewrite call_grants. destruct (stale s1); lia. }
  unfold mutations, requests, grants in *.
  rewrite !filter_app, !length_app.
  fold (mutations (call (searchRequest env memberId) s)).
  rewrite search_mutations. cbn [List.length].
  destruct (getMember env memberId s) as [[[m|]|f|x] s1]; cbn [filter List.length];
    repeat split;
    first
      [ lia
      | pose proof (B (createRequest env memberId name email isVip s1) (afterUuid s1));
        lia
      | pose proof (B (updateRequest env memberId name email isVip m s1) s1); lia
      | pose proof (B (deleteRequest env m) s1); lia ].
Qed.

(** ** Request bodies *)

Lemma assoc_setAssoc (k k' : string) (v : value) (props : list (string * value)) :
  assoc k' (setAssoc k v props)
  = if String.eqb k' k then Some v else assoc k' props.
Proof.
  induction props as [|[k0 v0] props IH]; cbn.
  - reflexivity.
  - destruct (String.eqb k k0) eqn:E; cbn.
    + apply String.eqb_eq in E. subst k0. now destruct (String.eqb k' k).
    + rewrite IH. destruct (String.eqb k' k0) eqn:E0; [|reflexivity].
      apply String.eqb_eq in E0. subst k0.
      now rewrite String.eqb_sym, E.
Qed.

Lemma getProp_setProp (k k' : string) (v : value) (props : list (string * value)) :
  getProp (setProp (VObj props) k v) k'
  = if String.eqb k' k then inr v else getProp (VObj props) k'.
Proof.
  cbn. rewrite assoc_setAssoc. now destruct (String.eqb k' k).
Qed.

Lemma createRequest_payload (memberId name email isVip : value) (s1 : state W)
    (tok : value) :
  exists body,
    payload (createRequest env memberId name email isVip s1 tok) = Some body
    /\ getProp body "password" = inr (VStr (fst (uuidV4 (world s1))))
    /\ forall k, k <> "password" ->
         getProp body k
         = getProp (umbracoMemberModel env (toUTCString (world s1))
                      memberId name email isVip) k.
Proof.
  eexists. split; [reflexivity|]. unfold umbracoMemberModel.
  split; [reflexivity|]. intros k Hk. rewrite getProp_setProp.
  destruct (String.eqb k "password") eqn:E; [|reflexivity].
  apply String.eqb_eq in E. now elim Hk.
Qed.

(** X10. The only request other than its lookup that [createMember] sends
    is a [POST] to the member URL whose body is what [umbracoMemberModel]
    built for its arguments, with one property more: [password], the string
    [uuidV4()] returned. The body of the [PUT] of [updateMember] is what
    [umbracoMemberModel] built, which has no [password]. The [DELETE] of
    [deleteMember] has no body. *)
Theorem operation_payloads (memberId name email isVip : value) (s : state W)
    (rq : Request) :
  (In (EvFetch rq) (since s (snd (createMember env memberId name email isVip s))) ->
   method rq <> GET ->
   exists s1 body,
     getMember env memberId s = (Resolved None, s1)
     /\ method rq = POST /\ url rq = MemberUrl (UMBRACO_HOST env)
     /\ payload rq = Some body
     /\ getProp body "password" = inr (VStr (fst (uuidV4 (world s1))))
     /\ forall k, k <> "password" ->
          getProp body k
          = getProp (umbracoMemberModel env (toUTCString (world s1))
                       memberId name email isVip) k)
  /\ (In (EvFetch rq) (since s (snd (updateMember env memberId name email isVip s))) ->
      method rq <> GET ->
      exists m s1 body,
        getMember env memberId s = (Resolved (Some m), s1)
        /\ payload rq = Some body
        /\ body = umbracoMemberModel env (toUTCString (world s1))
                    memberId name email isVip
        /\ getProp body "password" = inr VUndefined)
  /\ (In (EvFetch rq) (since s (snd (deleteMember env memberId s))) ->
      method rq <> GET -> payload rq = None).
Proof.
  rewrite createMember_events, updateMember_events, deleteMember_events.
  assert (L : In (EvFetch rq) (call (searchRequest env memberId) s) ->
              method rq <> GET -> False).
  { intros I NG. apply call_In in I as (tok & s1 & _ & ->). now elim NG. }
  repeat split; intros I NG; apply in_app_or in I as [I|I];
    try (now elim (L I NG));
    destruct (getMember env memberId s) as [[[m|]|f|x] s1]; try (now destruct I);
    apply call_In in I as (tok & s2 & _ & ->).
  - destruct (createRequest_payload memberId name email isVip s1 tok)
      as (body & P & Q & R).
    exists s1, body. repeat split; assumption.
  - exists m, s1. eexists. repeat split.
  - reflexivity.
Qed.

(** ** The token set across an operation *)

Lemma grants_app (a b : list event) :
  grants (a ++ b) = (grants a + grants b)%nat.
Proof.
  unfold grants. now rewrite filter_app, length_app.
Qed.

Lemma call_keeps (rq : value -> Request) (s s' : state W) :
  tokenSet s' = tokenSet (snd (getAccessToken s)) ->
  (grants (call rq s) = 0%nat -> tokenSet s' = tokenSet s)
  /\ (tokenSet s <> None -> tokenSet s' <> None).
Proof.
  intros ->. destruct (getAccessToken_tokenSet s) as [A B].
  split; [|exact B]. rewrite call_grants.
  destruct (stale s); [discriminate | auto].
Qed.

(** X11. Across a lookup, a create, an update or a delete, the cached
    token set is replaced only if a grant was requested: a run that asked
    for no grant ends with the token set it started with. And no run ever
    empties the cache: a token set once held is never dropped, only
    replaced. *)
Theorem tokenSet_moves_only_with_grant (memberId name email isVip : value)
    (s : state W) :
  let kept (s' : state W) :=
    (grants (since s s') = 0%nat -> tokenSet s' = tokenSet s)
    /\ (tokenSet s <> None -> tokenSet s' <> None) in
  kept (snd (getMember env memberId s))
  /\ kept (snd (createMember env memberId name email isVip s))
  /\ kept (snd (updateMember env memberId name email isVip s))
  /\ kept (snd (deleteMember env memberId s)).
Proof.
  intros kept. subst kept. cbv beta.
  pose proof (call_keeps (searchRequest env memberId) s _
                (getMember_tokenSet s memberId)) as [K0 N0].
  rewrite createMember_events, updateMember_events, deleteMember_events.
  rewrite (since_app _ _ _ (getMember_events s memberId)).
  rewrite createMember_flat, updateMember_flat, deleteMember_flat.
  split; [now split|].
  destruct (getMember env memberId s) as [[[m|]|f|x] s1]; cbn [snd] in *;
    rewrite ?app_nil_r; repeat split; auto;
    rewrite ?grants_app; intros Hyp;
    match goal with
    | |- context [send ?rq ?st] =>
        destruct (call_keeps rq st _ (send_tokenSet rq st)) as [K1 N1]
    end;
    cbn [afterUuid tokenSet] in *;
    first [ now auto | rewrite K1, K0 by lia; reflexivity ].
Qed.

(** ** The handlers *)

Lemma relay_state (p : promise bool * state W) : snd (relay p) = snd p.
Proof. now destruct p as [[b|f|x] s]. Qed.

Lemma postMember_valid (data : list (string * value)) (s : state W) :
  truthy (orUndefined (assoc "email" data)) = true ->
  truthy (orUndefined (assoc "name" data)) = true ->
  truthy (orUndefined (assoc "memberId" data)) = true ->
  postMember env (VObj data) s
  = relay (createMember env
             (orUndefined (assoc "memberId" data))
             (orUndefined (assoc "name" data))
             (orUndefined (assoc "email" data))
             (nullish (orUndefined (assoc "isVip" data)) (VBool false)) s).
Proof.
  intros E N M. unfold postMember, handler, bind, lift, ret, awaitThen, relay.
  cbn [getProp]. rewrite E, N, M. cbn [negb orb].
  now destruct (createMember _ _ _ _ _ s) as [[b|f|x] s'].
Qed.

Lemma putMember_falsy (param : string) (data : list (string * value)) (s : state W) :
  truthy (orUndefined (assoc "email" data)) = false
  \/ truthy (orUndefined (assoc "name" data)) = false ->
  putMember env param (VObj data) s = (Replied 400 (Some malformed), s).
Proof.
  intros F. unfold putMember, handler, bind, lift, ret. cbn [getProp].
  destruct F as [F|F]; rewrite F; cbn [negb orb];
    rewrite ?orb_true_r; reflexivity.
Qed.

Lemma putMember_valid (param : string) (data : list (string * value)) (s : state W) :
  truthy (orUndefined (assoc "email" data)) = true ->
  truthy (orUndefined (assoc "name" data)) = true ->
  putMember env param (VObj data) s
  = relay (updateMember env (VStr param)
             (orUndefined (assoc "name" data))
             (orUndefined (assoc "email" data))
             (nullish (orUndefined (assoc "isVip" data)) (VBool false)) s).
Proof.
  intros E N. unfold putMember, handler, bind, lift, ret, awaitThen, relay.
  cbn [getProp]. rewrite E, N. cbn [negb orb].
  now destruct (updateMember _ _ _ _ _ s) as [[b|f|x] s'].
Qed.

Lemma delMember_relay (param : string) (s : state W) :
  delMember env param s = relay (deleteMember env (VStr param) s).
Proof.
  unfold delMember, handler, awaitThen, relay, ret.
  now destruct (deleteMember _ _ s) as [[b|f|x] s'].
Qed.

(** X12. The handlers test their required fields for truth, not for
    presence: a [POST /member] whose [email], [name] or [memberId] is there
    but is the empty string, [null], [0] or [false] is answered 400 like one
    that lacks it, and so is a body that is an array. [PUT /member/:memberId]
    answers 400 on a missing or falsy [email] or [name]; it reads no
    [memberId] from the body. In each case nothing is sent downstream. *)
Theorem validation_is_by_truthiness (param : string)
    (data : list (string * value)) (elems : list value) (s : state W) :
  (truthy (orUndefined (assoc "email" data)) = false
   \/ truthy (orUndefined (assoc "name" data)) = false
   \/ truthy (orUndefined (assoc "memberId" data)) = false ->
   postMember env (VObj data) s = (Replied 400 (Some malformed), s))
  /\ postMember env (VArr elems) s = (Replied 400 (Some malformed), s)
  /\ (truthy (orUndefined (assoc "email" data)) = false
      \/ truthy (orUndefined (assoc "name" data)) = false ->
      putMember env param (VObj data) s = (Replied 400 (Some malformed), s))
  /\ putMember env param (VArr elems) s = (Replied 400 (Some malformed), s).
Proof.
  split; [apply postMember_falsy|]. split; [reflexivity|].
  split; [apply putMember_falsy | reflexivity].
Qed.

(** X13. Through the handlers: a well-formed [POST /member] for a member
    the lookup finds is answered 409 'Member already exists'; a well-formed
    [PUT /member/:memberId] and a [DELETE /member/:memberId] for a member
    the lookup does not find are answered 404 'No such member'. The process
    is then in the state the lookup left. *)
Theorem handlers_conflict_and_absent (param : string)
    (data : list (string * value)) (s s1 : state W) :
  truthy (orUndefined (assoc "email" data)) = true ->
  truthy (orUndefined (assoc "name" data)) = true ->
  (forall m,
     truthy (orUndefined (assoc "memberId" data)) = true ->
     getMember env (orUndefined (assoc "memberId" data)) s = (Resolved (Some m), s1) ->
     postMember env (VObj data) s
     = (Replied 409 (Some "Member already exists"), s1))
  /\ (getMember env (VStr param) s = (Resolved None, s1) ->
      putMember env param (VObj data) s = (Replied 404 (Some "No such member"), s1)
      /\ delMember env param s = (Replied 404 (Some "No such member"), s1)).
Proof.
  intros E N. split.
  - intros m M G. rewrite (postMember_valid data s E N M).
    now rewrite (createMember_found _ _ _ _ s s1 m G).
  - intros G. rewrite (putMember_valid param data s E N), delMember_relay.
    rewrite (updateMember_absent _ _ _ _ s s1 G).
    now rewrite (deleteMember_absent _ s s1 G).
Qed.

(** X14. Through the handlers: when the lookup rejects, each of the three
    handlers replies with the lookup's [code] as status and its
    [description] as body; when the lookup never settles, the request is
    never answered. *)
Theorem handlers_relay_lookup_failure (param : string)
    (data : list (string * value)) (s s1 : state W) :
  truthy (orUndefined (assoc "email" data)) = true ->
  truthy (orUndefined (assoc "name" data)) = true ->
  (forall f,
     (truthy (orUndefined (assoc "memberId" data)) = true ->
      getMember env (orUndefined (assoc "memberId" data)) s = (Rejected f, s1) ->
      postMember env (VObj data) s
      = (Replied (code f) (Some (description f)), s1))
     /\ (getMember env (VStr param) s = (Rejected f, s1) ->
         putMember env param (VObj data) s
         = (Replied (code f) (Some (description f)), s1)
         /\ delMember env param s
            = (Replied (code f) (Some (description f)), s1)))
  /\ (forall x,
        (truthy (orUndefined (assoc "memberId" data)) = true ->
         getMember env (orUndefined (assoc "memberId" data)) s = (Pending x, s1) ->
         postMember env (VObj data) s = (Hung x, s1))
        /\ (getMember env (VStr param) s = (Pending x, s1) ->
            putMember env param (VObj data) s = (Hung x, s1)
            /\ delMember env param s = (Hung x, s1))).
Proof.
  intros E N. split; intros y; split.
  - intros M G. rewrite (postMember_valid data s E N M), createMember_flat.
    now rewrite G.
  - intros G. rewrite (putMember_valid param data s E N), delMember_relay.
    rewrite updateMember_flat, deleteMember_flat. now rewrite G.
  - intros M G. rewrite (postMember_valid data s E N M), createMember_flat.
    now rewrite G.
  - intros G. rewrite (putMember_valid param data s E N), delMember_relay.
    rewrite updateMember_flat, deleteMember_flat. now rewrite G.
Qed.

Lemma send_resolved_true (rq : value -> Request) (s s' : state W) (b : bool) :
  send rq s = (Resolved b, s') -> b = true.
Proof.
  intros Q. now apply send_resolved in Q as [-> _].
Qed.

Lemma createMember_resolved_true (memberId name email isVip : value)
    (s s' : state W) (b : bool) :
  createMember env memberId name email isVip s = (Resolved b, s') -> b = true.
Proof.
  rewrite createMember_flat.
  destruct (getMember env memberId s) as [[[m|]|f|x] s1]; try discriminate.
  apply send_resolved_true.
Qed.

Lemma updateMember_resolved_true (memberId name email isVip : value)
    (s s' : state W) (b : bool) :
  updateMember env memberId name email isVip s = (Resolved b, s') -> b = true.
Proof.
  rewrite updateMember_flat.
  destruct (getMember env memberId s) as [[[m|]|f|x] s1]; try discriminate.
  apply send_resolved_true.
Qed.

Lemma deleteMember_resolved_true (memberId : value) (s s' : state W) (b : bool) :
  deleteMember env memberId s = (Resolved b, s') -> b = true.
Proof.
  rewrite deleteMember_flat.
  destruct (getMember env memberId s) as [[[m|]|f|x] s1]; try discriminate.
  apply send_resolved_true.
Qed.

Lemma not_ok_not_200 (r : Response) : ok r = false -> status r <> 200.
Proof.
  unfold ok. intros Hok E. rewrite E in Hok. discriminate.
Qed.

Lemma getMember_rejected_code (memberId : value) (s s1 : state W) (f : failure) :
  getMember env memberId s = (Rejected f, s1) -> code f <> 200.
Proof.
  intros G.
  destruct (getAccessToken s) as [[x|tok] s0] eqn:E.
  - rewrite (getMember_no_token s s0 memberId x E) in G. discriminate.
  - destruct (fetch (searchRequest env memberId tok) (world s0)) as [[x|r] w] eqn:F.
    + rewrite (getMember_no_response s s0 memberId tok x w E F) in G.
      discriminate.
    + destruct (ok r) eqn:Hok.
      * exfalso.
        apply (getMember_ok_not_rejected s s0 memberId tok r w f E F Hok).
        now rewrite G.
      * rewrite (getMember_not_ok s s0 memberId tok r w E F Hok) in G.
        inversion G; subst. cbn. now apply not_ok_not_200.
Qed.

Lemma send_rejected_code (rq : value -> Request) (s s' : state W) (f : failure) :
  send rq s = (Rejected f, s') -> code f <> 200.
Proof.
  intros Q. apply send_rejected in Q as (r & _ & Hok & _ & ->).
  cbn. now apply not_ok_not_200.
Qed.

Lemma operations_rejected_code (memberId name email isVip : value)
    (s s' : state W) (f : failure) :
  (createMember env memberId name email isVip s = (Rejected f, s') -> code f <> 200)
  /\ (updateMember env memberId name email isVip s = (Rejected f, s') -> code f <> 200)
  /\ (deleteMember env memberId s = (Rejected f, s') -> code f <> 200).
Proof.
  rewrite createMember_flat, updateMember_flat, deleteMember_flat.
  destruct (getMember env memberId s) as [[[m|]|f0|x] s1] eqn:G;
    repeat split; intros Q;
    try discriminate;
    try (now apply send_rejected_code in Q);
    try (inversion Q; subst; cbn; discriminate);
    inversion Q; subst; exact (getMember_rejected_code memberId s s' f G).
Qed.

(** X15. A handler replies 200 exactly when its operation resolved, and
    then without a body: no rejection of an operation carries the code 200,
    and a request that fails validation is answered 400. So a 200 on
    [POST /member] means the creation request was answered with a success
    status, and likewise for [PUT] and [DELETE]. *)
Theorem reply_200_iff_resolved (param : string) (data : list (string * value))
    (s s' : state W) (b : option string) :
  (postMember env (VObj data) s = (Replied 200 b, s')
   <-> b = None
       /\ truthy (orUndefined (assoc "email" data)) = true
       /\ truthy (orUndefined (assoc "name" data)) = true
       /\ truthy (orUndefined (assoc "memberId" data)) = true
       /\ createMember env
            (orUndefined (assoc "memberId" data))
            (orUndefined (assoc "name" data))
            (orUndefined (assoc "email" data))
            (nullish (orUndefined (assoc "isVip" data)) (VBool false)) s
          = (Resolved true, s'))
  /\ (putMember env param (VObj data) s = (Replied 200 b, s')
      <-> b = None
          /\ truthy (orUndefined (assoc "email" data)) = true
          /\ truthy (orUndefined (assoc "name" data)) = true
          /\ updateMember env (VStr param)
               (orUndefined (assoc "name" data))
               (orUndefined (assoc "email" data))
               (nullish (orUndefined (assoc "isVip" data)) (VBool false)) s
             = (Resolved true, s'))
  /\ (delMember env param s = (Replied 200 b, s')
      <-> b = None /\ deleteMember env (VStr param) s = (Resolved true, s')).
Proof.
  split; [|split].
  - destruct (truthy (orUndefined (assoc "email" data))) eqn:E;
      [destruct (truthy (orUndefined (assoc "name" data))) eqn:N;
       [destruct (truthy (orUndefined (assoc "memberId" data))) eqn:M|]|];
      try (rewrite postMember_falsy by auto; split;
           [discriminate | intros (_ & ? & ? & ? & _); discriminate]).
    rewrite (postMember_valid data s E N M).
    destruct (createMember _ _ _ _ _ s) as [[v|f|x] s2] eqn:C; cbn [relay].
    + apply createMember_resolved_true in C as ->.
      split; intros Q; [inversion Q; subst; auto | destruct Q as (-> & _ & _ & _ & Q)];
        now inversion Q.
    + destruct (operations_rejected_code
                  (orUndefined (assoc "memberId" data))
                  (orUndefined (assoc "name" data))
                  (orUndefined (assoc "email" data))
                  (nullish (orUndefined (assoc "isVip" data)) (VBool false))
                  s s2 f) as (R & _ & _).
      split; intros Q; [inversion Q; subst; now elim (R C) |].
      destruct Q as (_ & _ & _ & _ & Q). discriminate.
    + split; [discriminate|]. intros (_ & _ & _ & _ & Q). discriminate.
  - destruct (truthy (orUndefined (assoc "email" data))) eqn:E;
      [destruct (truthy (orUndefined (assoc "name" data))) eqn:N|];
      try (rewrite putMember_falsy by auto; split;
           [discriminate | intros (_ & ? & ? & _); discriminate]).
    rewrite (putMember_valid param data s E N).
    destruct (updateMember _ _ _ _ _ s) as [[v|f|x] s2] eqn:C; cbn [relay].
    + apply updateMember_resolved_true in C as ->.
      split; intros Q; [inversion Q; subst; auto | destruct Q as (-> & _ & _ & Q)];
        now inversion Q.
    + destruct (operations_rejected_code (VStr param)
                  (orUndefined (assoc "name" data))
                  (orUndefined (assoc "email" data))
                  (nullish (orUndefined (assoc "isVip" data)) (VBool false))
                  s s2 f) as (_ & R & _).
      split; intros Q; [inversion Q; subst; now elim (R C) |].
      destruct Q as (_ & _ & _ & Q). discriminate.
    + split; [discriminate|]. intros (_ & _ & _ & Q). discriminate.
  - rewrite delMember_relay.
    destruct (deleteMember _ _ s) as [[v|f|x] s2] eqn:C; cbn [relay].
    + apply deleteMember_resolved_true in C as ->.
      split; intros Q; [inversion Q; subst; auto | destruct Q as (-> & Q)];
        now inversion Q.
    + destruct (operations_rejected_code (VStr param) VNull VNull VNull s s2 f)
        as (_ & _ & R).
      split; intros Q; [inversion Q; subst; now elim (R C) |].
      destruct Q as (_ & Q). discriminate.
    + split; [discriminate|]. intros (_ & Q). discriminate.
Qed.

(** ** Group membership through the handlers *)

Lemma model_groups (now : string) (memberId name email isVip : value) :
  getProp (umbracoMemberModel env now memberId name email isVip) "groups"
  = inr (VArr (envValue (UMBRACO_MEMBER_GROUP_REGULAR_ID env)
               :: (if truthy isVip
                   then [envValue (UMBRACO_MEMBER_GROUP_VIP_ID env)]
                   else []))).
Proof.
  unfold umbracoMemberModel. cbn. now destruct (truthy isVip).
Qed.

Lemma createMember_request (memberId name email isVip : value) (s : state W)
    (rq : Request) :
  In (EvFetch rq) (since s (snd (createMember env memberId name email isVip s))) ->
  method rq <> GET ->
  exists s1 tok s2,
    getMember env memberId s = (Resolved None, s1)
    /\ getAccessToken (afterUuid s1) = (inr tok, s2)
    /\ rq = createRequest env memberId name email isVip s1 tok.
Proof.
  rewrite createMember_events. intros I NG. apply in_app_or in I as [I|I].
  - apply call_In in I as (tok & s1 & _ & ->). now elim NG.
  - destruct (getMember env memberId s) as [[[m|]|f|x] s1]; try (now destruct I).
    apply call_In in I as (tok & s2 & E & ->). now exists s1, tok, s2.
Qed.

Lemma updateMember_request (memberId name email isVip : value) (s : state W)
    (rq : Request) :
  In (EvFetch rq) (since s (snd (updateMember env memberId name email isVip s))) ->
  method rq <> GET ->
  exists m s1 tok s2,
    getMember env memberId s = (Resolved (Some m), s1)
    /\ getAccessToken s1 = (inr tok, s2)
    /\ rq = updateRequest env memberId name email isVip m s1 tok.
Proof.
  rewrite updateMember_events. intros I NG. apply in_app_or in I as [I|I].
  - apply call_In in I as (tok & s1 & _ & ->). now elim NG.
  - destruct (getMember env memberId s) as [[[m|]|f|x] s1]; try (now destruct I).
    apply call_In in I as (tok & s2 & E & ->). now exists m, s1, tok, s2.
Qed.

Lemma deleteMember_request (memberId : value) (s : state W) (rq : Request) :
  In (EvFetch rq) (since s (snd (deleteMember env memberId s))) ->
  method rq <> GET ->
  exists m s1 tok s2,
    getMember env memberId s = (Resolved (Some m), s1)
    /\ getAccessToken s1 = (inr tok, s2)
    /\ rq = deleteRequest env m tok.
Proof.
  rewrite deleteMember_events. intros I NG. apply in_app_or in I as [I|I].
  - apply call_In in I as (tok & s1 & _ & ->). now elim NG.
  - destruct (getMember env memberId s) as [[[m|]|f|x] s1]; try (now destruct I).
    apply call_In in I as (tok & s2 & E & ->). now exists m, s1, tok, s2.
Qed.

(** X16. The groups a handler sends downstream: the body of the [POST]
    (of the [PUT]) that a well-formed request leads to lists the regular
    group, followed by the VIP group exactly when the body's [isVip] is
    truthy. A body without [isVip], or with [isVip: null], counts as
    [false] and yields the regular group alone; any truthy [isVip], boolean
    or not, yields both. *)
Theorem handlers_groups_follow_isVip (param : string)
    (data : list (string * value)) (s : state W) (rq : Request) :
  let isVip := nullish (orUndefined (assoc "isVip" data)) (VBool false) in
  let groups :=
    VArr (envValue (UMBRACO_MEMBER_GROUP_REGULAR_ID env)
          :: (if truthy isVip
              then [envValue (UMBRACO_MEMBER_GROUP_VIP_ID env)]
              else [])) in
  truthy (orUndefined (assoc "email" data)) = true ->
  truthy (orUndefined (assoc "name" data)) = true ->
  method rq <> GET ->
  (truthy (orUndefined (assoc "memberId" data)) = true ->
   In (EvFetch rq) (since s (snd (postMember env (VObj data) s))) ->
   exists body, payload rq = Some body /\ getProp body "groups" = inr groups)
  /\ (In (EvFetch rq) (since s (snd (putMember env param (VObj data) s))) ->
      exists body, payload rq = Some body /\ getProp body "groups" = inr groups)
  /\ (assoc "isVip" data = None \/ assoc "isVip" data = Some VNull ->
      groups = VArr [envValue (UMBRACO_MEMBER_GROUP_REGULAR_ID env)]).
Proof.
  intros isVip groups E N NG. split; [|split].
  - intros M I. rewrite (postMember_valid data s E N M), relay_state in I.
    apply createMember_request in I as (s1 & tok & s2 & _ & _ & ->);
      [|assumption].
    destruct (createRequest_payload
                (orUndefined (assoc "memberId" data))
                (orUndefined (assoc "name" data))
                (orUndefined (assoc "email" data)) isVip s1 tok)
      as (body & P & _ & R).
    exists body. split; [exact P|].
    rewrite R by discriminate. apply model_groups.
  - intros I. rewrite (putMember_valid param data s E N), relay_state in I.
    apply updateMember_request in I as (m & s1 & tok & s2 & _ & _ & ->);
      [|assumption].
    eexists. split; [reflexivity|]. apply model_groups.
  - intros [V|V]; subst groups isVip; rewrite V; reflexivity.
Qed.

(** X17. The mutating request of an operation carries, as its bearer, the
    access token of the token set that the cache holds when the operation
    ends. *)
Theorem mutation_carries_cached_token (memberId name email isVip : value)
    (s : state W) (rq : Request) :
  method rq <> GET ->
  (In (EvFetch rq) (since s (snd (createMember env memberId name email isVip s))) ->
   exists ts,
     tokenSet (snd (createMember env memberId name email isVip s)) = Some ts
     /\ bearer rq = access_token ts)
  /\ (In (EvFetch rq) (since s (snd (updateMember env memberId name email isVip s))) ->
      exists ts,
        tokenSet (snd (updateMember env memberId name email isVip s)) = Some ts
        /\ bearer rq = access_token ts)
  /\ (In (EvFetch rq) (since s (snd (deleteMember env memberId s))) ->
      exists ts,
        tokenSet (snd (deleteMember env memberId s)) = Some ts
        /\ bearer rq = access_token ts).
Proof.
  intros NG. split; [|split]; intros I.
  - apply createMember_request in I as (s1 & tok & s2 & G & E & ->); [|assumption].
    rewrite createMember_flat, G, send_tokenSet, E.
    exact (getAccessToken_returned _ s2 tok E).
  - apply updateMember_request in I as (m & s1 & tok & s2 & G & E & ->);
      [|assumption].
    rewrite updateMember_flat, G, send_tokenSet, E.
    exact (getAccessToken_returned _ s2 tok E).
  - apply deleteMember_request in I as (m & s1 & tok & s2 & G & E & ->);
      [|assumption].
    rewrite deleteMember_flat, G, send_tokenSet, E.
    exact (getAccessToken_returned _ s2 tok E).
Qed.

(** ** When an operation never settles *)

Lemma send_pending (rq : value -> Request) (s s' : state W) (x : exn) :
  send rq s = (Pending x, s') <-> stuck rq s s' x.
Proof.
  unfold send, stuck, answered, answer, json. split.
  - destruct (getAccessToken s) as [[y|tok] s1] eqn:E.
    + intros Q. inversion Q; subst. now left.
    + destruct (fetch (rq tok) (world s1)) as [[y|r] w] eqn:F.
      * intros Q. inversion Q; subst. right. left. now exists tok, s1, w.
      * destruct (ok r) eqn:Hok; [discriminate|].
        destruct (jsonBody r) eqn:J; [discriminate|].
        intros Q. inversion Q; subst. right. right. exists r.
        split; [now exists tok, s1, w | auto].
  - intros [Q | [(tok & s1 & w & E & F & ->) | (r & (tok & s1 & w & E & F & ->) & Hok & J & ->)]].
    + now rewrite Q.
    + now rewrite E, F.
    + now rewrite E, F, Hok, J.
Qed.

(** X18. An operation is left unsettled, so that its handler never
    replies, in these cases and no other: its lookup never settled; or,
    the lookup having let it proceed, its own call got stuck, the token
    could not be had, [fetch] threw, or the answer was a non-success status
    without a JSON body. In particular an operation whose request was
    answered with a success status always settles. *)
Theorem operations_pending_iff (memberId name email isVip : value)
    (s s' : state W) (x : exn) :
  (createMember env memberId name email isVip s = (Pending x, s')
   <-> getMember env memberId s = (Pending x, s')
       \/ exists s1,
            getMember env memberId s = (Resolved None, s1)
            /\ stuck (createRequest env memberId name email isVip s1)
                 (afterUuid s1) s' x)
  /\ (updateMember env memberId name email isVip s = (Pending x, s')
      <-> getMember env memberId s = (Pending x, s')
          \/ exists m s1,
               getMember env memberId s = (Resolved (Some m), s1)
               /\ stuck (updateRequest env memberId name email isVip m s1) s1 s' x)
  /\ (deleteMember env memberId s = (Pending x, s')
      <-> getMember env memberId s = (Pending x, s')
          \/ exists m s1,
               getMember env memberId s = (Resolved (Some m), s1)
               /\ stuck (deleteRequest env m) s1 s' x).
Proof.
  rewrite createMember_flat, updateMember_flat, deleteMember_flat.
  destruct (getMember env memberId s) as [[[m|]|f|y] s1];
    rewrite ?send_pending; repeat split;
    try discriminate;
    try (intros [Q | (? & Q & _)]; discriminate);
    try (intros [Q | (? & ? & Q & _)]; discriminate);
    try (intros St; right; eauto; fail);
    try (intros [Q | (? & Q & St)]; [discriminate | now inversion Q; subst]);
    try (intros [Q | (? & ? & Q & St)]; [discriminate | now inversion Q; subst]);
    try (intros Q; inversion Q; subst; now left);
    try (intros [Q | (? & Q & _)]; [now inversion Q | discriminate]);
    try (intros [Q | (? & ? & Q & _)]; [now inversion Q | discriminate]).
Qed.

(** X19. A success status does not make a lookup succeed: when the body is
    not JSON, or is JSON [null], or has a [total] other than the number [0]
    (a missing one, a string) and no [items] or an empty [items], the lookup
    throws inside its executor and never settles. Only the number [0] counts
    as an empty result. *)
Theorem getMember_unreadable_success (memberId : value) (s s1 : state W)
    (tok : value) (r : Response) (w : W) :
  getAccessToken s = (inr tok, s1) ->
  fetch (searchRequest env memberId tok) (world s1) = (inr r, w) ->
  ok r = true ->
  (jsonBody r = None ->
     getMember env memberId s
     = (Pending SyntaxError, fetched s1 (searchRequest env memberId tok) w))
  /\ (jsonBody r = Some VNull ->
        getMember env memberId s
        = (Pending TypeError, fetched s1 (searchRequest env memberId tok) w))
  /\ (forall result total items,
        jsonBody r = Some result ->
        getProp result "total" = inr total -> isZero total = false ->
        getProp result "items" = inr items ->
        items = VUndefined \/ items = VNull \/ items = VArr [] ->
        getMember env memberId s
        = (Pending TypeError, fetched s1 (searchRequest env memberId tok) w)).
Proof.
  intros E F Hok. repeat split.
  - intros J. unfold getMember, newPromise, bind, lift, json.
    now rewrite E, (awaitFetch_run _ _ _ _ F), Hok, J.
  - intros J. unfold getMember, newPromise, bind, lift, json.
    now rewrite E, (awaitFetch_run _ _ _ _ F), Hok, J.
  - intros result total items J T Z I Sh.
    unfold getMember, newPromise, bind, lift, json.
    rewrite E, (awaitFetch_run _ _ _ _ F), Hok, J, T, Z, I.
    now destruct Sh as [-> | [-> | ->]].
Qed.

(** ** The translator and the clock *)

(** X20. The clock reaches the output of [umbracoMemberModel] through the
    audit entry alone: [values] is the single record [{culture: null,
    segment: null, alias: 'lastSyncMessage', value: 'Last update: ' + now}],
    and every other property is the same whatever the time. [memberType] is
    [{id}] with the configured member type id. *)
Theorem umbracoMemberModel_clock_in_audit_only (now now' : string)
    (memberId name email isVip : value) :
  (forall k, k <> "values" ->
     getProp (umbracoMemberModel env now memberId name email isVip) k
     = getProp (umbracoMemberModel env now' memberId name email isVip) k)
  /\ getProp (umbracoMemberModel env now memberId name email isVip) "values"
     = inr (VArr [VObj [("culture", VNull); ("segment", VNull);
                        ("alias", VStr "lastSyncMessage");
                        ("value", VStr ("Last update: " ++ now)%string)]])
  /\ getProp (umbracoMemberModel env now memberId name email isVip) "memberType"
     = inr (VObj [("id", envValue (UMBRACO_MEMBER_TYPE_ID env))]).
Proof.
  split; [|split; reflexivity].
  intros k Hk. unfold umbracoMemberModel. cbn [getProp assoc].
  repeat match goal with
         | |- context [String.eqb k ?lit] =>
             destruct (String.eqb k lit) eqn:?; [try reflexivity|]
         end;
    try reflexivity.
  match goal with
  | E : String.eqb k "values" = true |- _ => apply String.eqb_eq in E; now elim Hk
  end.
Qed.

End BrokerFacts.

(** * The properties on the scripted downstream *)

Import Script.
Local Open Scope list_scope.

(** C7. A downstream failure whose body is not JSON is classified by the
    lookup but not by the three operations behind it: after a lookup that
    found nothing, a creation answered [500 Internal Server Error] with an
    empty body never settles ([response.json()] throws before [reject] is
    reached) and [POST /member] is left unanswered; update and delete fail
    the same way after a lookup that found the member; whereas the lookup
    itself, answered the same, rejects with [{code: 500, description:
    'Internal Server Error'}]. *)
Theorem createMember_not_json_never_settles :
  fst (createMember testEnv (VStr "m1") (VStr "Alice") (VStr "a@x.com") (VBool false)
         (session [notFound; serverError]))
  = Pending SyntaxError
  /\ fst (postMember testEnv
            (VObj [("memberId", VStr "m1"); ("name", VStr "Alice");
                   ("email", VStr "a@x.com")])
            (session [notFound; serverError]))
     = Hung SyntaxError
  /\ fst (updateMember testEnv (VStr "m1") (VStr "Alice") (VStr "a@x.com") (VBool false)
            (session [found "m1"; serverError]))
     = Pending SyntaxError
  /\ fst (deleteMember testEnv (VStr "m1") (session [found "m1"; serverError]))
     = Pending SyntaxError
  /\ fst (getMember testEnv (VStr "m1") (session [serverError]))
     = Rejected (mkFailure 500 "Internal Server Error").
Proof.
  repeat split; reflexivity.
Qed.

(** First call, second call a moment later, third call after the token's
    minute has passed. *)
Lemma getAccessToken_grants_iff_stale_witness :
  let s1 := snd (getAccessToken twoTokens) in
  let s2 := sleep 100 s1 in
  (tokenSet twoTokens = None
   /\ since twoTokens (snd (getAccessToken twoTokens)) = [EvGrant])
  /\ (tokenSet s1 = Some (token "t1" 1060)
      /\ expired (token "t1" 1060) (world s1) = false
      /\ getAccessToken s1 = (inr (VStr "t1"), s1))
  /\ (tokenSet s2 = Some (token "t1" 1060)
      /\ expired (token "t1" 1060) (world s2) = true
      /\ since s2 (snd (getAccessToken s2)) = [EvGrant]).
Proof.
  intros s1 s2.
  destruct (getAccessToken_grants_iff_stale twoTokens) as (_ & _ & _ & _ & A & _).
  destruct (getAccessToken_grants_iff_stale s1) as (_ & _ & _ & B & _ & _).
  destruct (getAccessToken_grants_iff_stale s2) as (_ & _ & _ & _ & _ & C).
  split; [|split].
  - split; [reflexivity | apply A; reflexivity].
  - split; [reflexivity |
            split; [reflexivity | apply (B (token "t1" 1060)); reflexivity]].
  - split; [reflexivity |
            split; [reflexivity | apply (C (token "t1" 1060)); reflexivity]].
Defined.

Lemma getAccessToken_failure_keeps_tokenSet_witness :
  stale refused = true
  /\ fst (getAccessToken refused) = inl (Thrown (VStr "invalid_client"))
  /\ tokenSet (snd (getAccessToken refused)) = Some (token "t0" 900).
Proof.
  destruct (getAccessToken_failure_keeps_tokenSet refused) as [A _].
  split; [reflexivity|].
  apply (A (Thrown (VStr "invalid_client")) (mkWorld 1000 [] [] []));
    reflexivity.
Defined.

Lemma getMember_empty_is_null_witness :
  ok notFound = true
  /\ fst (getMember testEnv (VStr "m1") (session [notFound])) = Resolved None.
Proof.
  destruct (getMember_empty_is_null testEnv (VStr "m1")) as [A _].
  split; [reflexivity|].
  rewrite (A (session [notFound])
             (snd (getAccessToken (session [notFound])))
             (VStr "t1") notFound (mkWorld 1000 [] [] ["u1"])
             (VObj [("total", VNum 0); ("items", VArr [])]));
    reflexivity.
Defined.

Lemma getMember_reads_first_unchecked_witness :
  ok miscounted = true
  /\ fst (getMember testEnv (VStr "m1") (session [miscounted]))
     = Pending TypeError.
Proof.
  split; [reflexivity|].
  assert (E : getAccessToken (session [miscounted])
              = (inr (VStr "t1"), snd (getAccessToken (session [miscounted]))))
    by reflexivity.
  assert (F : fetch (searchRequest testEnv (VStr "m1") (VStr "t1"))
                (world (snd (getAccessToken (session [miscounted]))))
              = (inr miscounted, mkWorld 1000 [] [] ["u1"]))
    by reflexivity.
  assert (P : 1 > 0) by reflexivity.
  destruct (getMember_reads_first_unchecked testEnv (VStr "m1") _ _ _ _ _
              (VObj [("total", VNum 1); ("items", VArr [])]) 1
              E F eq_refl eq_refl eq_refl P)
    as [A _].
  rewrite A; reflexivity.
Defined.

(** Create, then create again. *)
Lemma createMember_conflict_witness :
  let s0 := session [notFound; mkResponse 201 "Created" None; found "m1"] in
  let s := snd (createMember testEnv (VStr "m1") (VStr "Alice") (VStr "a@x.com")
                  (VBool true) s0) in
  fst (createMember testEnv (VStr "m1") (VStr "Alice") (VStr "a@x.com") (VBool true) s0)
  = Resolved true
  /\ fst (createMember testEnv (VStr "m1") (VStr "Alice") (VStr "a@x.com")
            (VBool true) s)
     = Rejected (mkFailure 409 "Member already exists")
  /\ forallb (fun e => negb (isMutating e))
       (since s (snd (createMember testEnv (VStr "m1") (VStr "Alice")
                        (VStr "a@x.com") (VBool true) s))) = true.
Proof.
  intros s0 s.
  destruct (createMember_conflict testEnv (VStr "m1") (VStr "Alice")
              (VStr "a@x.com") (VBool true) s
              (snd (getMember testEnv (VStr "m1") s))
              (mkMember (VStr "d1f0") (VStr "a@x.com") (VStr "m1") (VStr "Alice")))
    as [A B]; [reflexivity|].
  split; [reflexivity|]. split; [rewrite A; reflexivity | exact B].
Defined.

Lemma update_delete_absent_witness :
  fst (updateMember testEnv (VStr "m1") (VStr "Alice") (VStr "a@x.com") (VBool false)
         (session [notFound]))
  = Rejected (mkFailure 404 "No such member")
  /\ fst (deleteMember testEnv (VStr "m1") (session [notFound]))
     = Rejected (mkFailure 404 "No such member").
Proof.
  destruct (update_delete_absent testEnv (VStr "m1") (VStr "Alice")
              (VStr "a@x.com") (VBool false) (session [notFound])
              (snd (getMember testEnv (VStr "m1") (session [notFound]))))
    as (A & B & _); [reflexivity|].
  split; [rewrite A | rewrite B]; reflexivity.
Defined.

Lemma mutation_addressed_by_lookup_witness :
  let s := session [found "m1"; mkResponse 200 "OK" None] in
  let rq :=
    mkRequest DELETE (MemberIdUrl (Some "https://cms.test/") (VStr "d1f0"))
      (VStr "t1") None in
  In (EvFetch rq) (since s (snd (deleteMember testEnv (VStr "m1") s)))
  /\ exists m s1,
       getMember testEnv (VStr "m1") s = (Resolved (Some m), s1)
       /\ method rq = DELETE
       /\ url rq = MemberIdUrl (UMBRACO_HOST testEnv) (id m).
Proof.
  intros s rq.
  assert (I : In (EvFetch rq) (since s (snd (deleteMember testEnv (VStr "m1") s)))).
  { right. right. left. reflexivity. }
  split; [exact I|].
  destruct (mutation_addressed_by_lookup testEnv (VStr "m1") VUndefined VUndefined
              VUndefined s rq) as [_ D].
  apply D; [exact I | discriminate].
Defined.

Lemma umbracoMemberModel_shape_witness :
  VStr "group-vip" <> VStr "group-regular"
  /\ getProp (umbracoMemberModel testEnv "Thu, 01 Jan 1970 00:00:00 GMT"
                (VStr "m1") (VStr "Alice") (VStr "a@x.com") (VBool true)) "groups"
     = inr (VArr [VStr "group-regular"; VStr "group-vip"])
  /\ getProp (umbracoMemberModel testEnv "Thu, 01 Jan 1970 00:00:00 GMT"
                (VStr "m1") (VStr "Alice") (VStr "a@x.com") (VBool false)) "groups"
     = inr (VArr [VStr "group-regular"]).
Proof.
  split; [discriminate|].
  destruct (umbracoMemberModel_shape testEnv "Thu, 01 Jan 1970 00:00:00 GMT"
              (VStr "m1") (VStr "Alice") (VStr "a@x.com") (VBool true))
    as (g1 & G1 & _ & E1 & _).
  destruct (umbracoMemberModel_shape testEnv "Thu, 01 Jan 1970 00:00:00 GMT"
              (VStr "m1") (VStr "Alice") (VStr "a@x.com") (VBool false))
    as (g2 & G2 & _ & E2 & _).
  split; [rewrite G1, E1 | rewrite G2, E2]; reflexivity.
Defined.

Lemma postMember_missing_field_witness :
  assoc "email" [("memberId", VStr "m1"); ("name", VStr "Alice")] = None
  /\ postMember testEnv (VObj [("memberId", VStr "m1"); ("name", VStr "Alice")])
       (session [])
     = (Replied 400 (Some malformed), session []).
Proof.
  split; [reflexivity|].
  apply (postMember_missing_field testEnv
           [("memberId", VStr "m1"); ("name", VStr "Alice")] (session [])).
  left. reflexivity.
Defined.

(** ** Further properties on the scripted downstream *)

Lemma getAccessToken_outcome_witness :
  getAccessToken refused
  = (inl (Thrown (VStr "invalid_client")), snd (getAccessToken refused))
  /\ stale refused = true
  /\ grant (world refused)
     = (inl (Thrown (VStr "invalid_client")), world (snd (getAccessToken refused))).
Proof.
  split; [reflexivity|].
  apply (proj1 (getAccessToken_outcome refused (snd (getAccessToken refused)))).
  reflexivity.
Defined.

Lemma lookup_failure_propagates_witness :
  let s := session [serverError] in
  let s1 := snd (getMember testEnv (VStr "m1") s) in
  getMember testEnv (VStr "m1") s
  = (Rejected (mkFailure 500 "Internal Server Error"), s1)
  /\ createMember testEnv (VStr "m1") (VStr "Alice") (VStr "a@x.com") (VBool false) s
     = (Rejected (mkFailure 500 "Internal Server Error"), s1)
  /\ updateMember testEnv (VStr "m1") (VStr "Alice") (VStr "a@x.com") (VBool false) s
     = (Rejected (mkFailure 500 "Internal Server Error"), s1)
  /\ deleteMember testEnv (VStr "m1") s
     = (Rejected (mkFailure 500 "Internal Server Error"), s1).
Proof.
  intros s s1. split; [reflexivity|].
  apply (proj1 (lookup_failure_propagates testEnv (VStr "m1") (VStr "Alice")
                  (VStr "a@x.com") (VBool false) s s1)).
  reflexivity.
Defined.

Lemma createMember_resolved_iff_witness :
  let s := session [notFound; created] in
  let s' := snd (createMember testEnv (VStr "m1") (VStr "Alice") (VStr "a@x.com")
                   (VBool true) s) in
  createMember testEnv (VStr "m1") (VStr "Alice") (VStr "a@x.com") (VBool true) s
  = (Resolved true, s')
  /\ exists s1 r,
       getMember testEnv (VStr "m1") s = (Resolved None, s1)
       /\ answered (createRequest testEnv (VStr "m1") (VStr "Alice")
                      (VStr "a@x.com") (VBool true) s1) (afterUuid s1) s' r
       /\ ok r = true.
Proof.
  intros s s'. split; [reflexivity|].
  apply (proj1 (createMember_resolved_iff testEnv (VStr "m1") (VStr "Alice")
                  (VStr "a@x.com") (VBool true) s s' true)).
  reflexivity.
Defined.

Lemma update_delete_resolved_iff_witness :
  let s := session [found "m1"; done] in
  let s' := snd (deleteMember testEnv (VStr "m1") s) in
  deleteMember testEnv (VStr "m1") s = (Resolved true, s')
  /\ exists m s1 r,
       getMember testEnv (VStr "m1") s = (Resolved (Some m), s1)
       /\ answered (deleteRequest testEnv m) s1 s' r
       /\ ok r = true.
Proof.
  intros s s'. split; [reflexivity|].
  apply (proj1 (proj2 (update_delete_resolved_iff testEnv (VStr "m1") VNull VNull
                         VNull s s' true))).
  reflexivity.
Defined.

Lemma createMember_rejected_iff_witness :
  let s := session [notFound; badRequest] in
  let s' := snd (createMember testEnv (VStr "m1") (VStr "Alice") (VStr "a@x.com")
                   (VBool true) s) in
  let f := mkFailure 400 "Bad Request" in
  createMember testEnv (VStr "m1") (VStr "Alice") (VStr "a@x.com") (VBool true) s
  = (Rejected f, s')
  /\ ((exists m, getMember testEnv (VStr "m1") s = (Resolved (Some m), s')
                 /\ f = mkFailure 409 "Member already exists")
      \/ getMember testEnv (VStr "m1") s = (Rejected f, s')
      \/ (exists s1 r,
            getMember testEnv (VStr "m1") s = (Resolved None, s1)
            /\ answered (createRequest testEnv (VStr "m1") (VStr "Alice")
                           (VStr "a@x.com") (VBool true) s1) (afterUuid s1) s' r
            /\ ok r = false /\ jsonBody r <> None
            /\ f = mkFailure (status r) (statusText r))).
Proof.
  intros s s' f. split; [reflexivity|].
  apply (proj1 (createMember_rejected_iff testEnv (VStr "m1") (VStr "Alice")
                  (VStr "a@x.com") (VBool true) s s' f)).
  reflexivity.
Defined.

Lemma updateMember_rejected_iff_witness :
  let s := session [notFound] in
  let s' := snd (getMember testEnv (VStr "m1") s) in
  getMember testEnv (VStr "m1") s = (Resolved None, s')
  /\ updateMember testEnv (VStr "m1") (VStr "Alice") (VStr "a@x.com") (VBool true) s
     = (Rejected (mkFailure 404 "No such member"), s').
Proof.
  intros s s'. split; [reflexivity|].
  apply (proj2 (updateMember_rejected_iff testEnv (VStr "m1") (VStr "Alice")
                  (VStr "a@x.com") (VBool true) s s'
                  (mkFailure 404 "No such member"))).
  left. split; reflexivity.
Defined.

Lemma deleteMember_rejected_iff_witness :
  let s := session [found "m1"; badRequest] in
  let s' := snd (deleteMember testEnv (VStr "m1") s) in
  let f := mkFailure 400 "Bad Request" in
  deleteMember testEnv (VStr "m1") s = (Rejected f, s')
  /\ ((getMember testEnv (VStr "m1") s = (Resolved None, s')
       /\ f = mkFailure 404 "No such member")
      \/ getMember testEnv (VStr "m1") s = (Rejected f, s')
      \/ (exists m s1 r,
            getMember testEnv (VStr "m1") s = (Resolved (Some m), s1)
            /\ answered (deleteRequest testEnv m) s1 s' r
            /\ ok r = false /\ jsonBody r <> None
            /\ f = mkFailure (status r) (statusText r))).
Proof.
  intros s s' f. split; [reflexivity|].
  apply (proj1 (deleteMember_rejected_iff testEnv (VStr "m1") s s' f)).
  reflexivity.
Defined.

Lemma getMember_sends_one_get_witness :
  let s := session [notFound] in
  let rq := searchRequest testEnv (VStr "m1") (VStr "t1") in
  In (EvFetch rq) (since s (snd (getMember testEnv (VStr "m1") s)))
  /\ rq = mkRequest GET (FilterMemberUrl (UMBRACO_HOST testEnv) (VStr "m1"))
            (bearer rq) None
  /\ exists ts, tokenSet (snd (getMember testEnv (VStr "m1") s)) = Some ts
                /\ bearer rq = access_token ts.
Proof.
  intros s rq.
  assert (I : In (EvFetch rq) (since s (snd (getMember testEnv (VStr "m1") s)))).
  { right. left. reflexivity. }
  split; [exact I|].
  destruct (getMember_sends_one_get testEnv (VStr "m1") s) as (_ & _ & _ & A).
  exact (A rq I).
Defined.

Lemma operation_payloads_witness :
  let s := session [found "m1"; done] in
  let rq := deleteRequest testEnv aliceFound (VStr "t1") in
  In (EvFetch rq) (since s (snd (deleteMember testEnv (VStr "m1") s)))
  /\ method rq <> GET
  /\ payload rq = None.
Proof.
  intros s rq.
  assert (I : In (EvFetch rq) (since s (snd (deleteMember testEnv (VStr "m1") s)))).
  { right. right. left. reflexivity. }
  assert (NG : method rq <> GET) by discriminate.
  split; [exact I|]. split; [exact NG|].
  destruct (operation_payloads testEnv (VStr "m1") VNull VNull VNull s rq)
    as (_ & _ & D).
  exact (D I NG).
Defined.

(** A lookup made with a fresh token set in the cache. *)
Lemma tokenSet_moves_only_with_grant_witness :
  let s := snd (getAccessToken (session [notFound])) in
  grants (since s (snd (getMember testEnv (VStr "m1") s))) = 0%nat
  /\ tokenSet (snd (getMember testEnv (VStr "m1") s)) = tokenSet s.
Proof.
  intros s.
  assert (G : grants (since s (snd (getMember testEnv (VStr "m1") s))) = 0%nat)
    by reflexivity.
  split; [exact G|].
  destruct (tokenSet_moves_only_with_grant testEnv (VStr "m1") VNull VNull VNull s)
    as ((K & _) & _).
  exact (K G).
Defined.

Lemma validation_is_by_truthiness_witness :
  truthy (orUndefined (assoc "name" namelessBody)) = false
  /\ postMember testEnv (VObj namelessBody) (session [])
     = (Replied 400 (Some malformed), session [])
  /\ putMember testEnv "m1" (VObj namelessBody) (session [])
     = (Replied 400 (Some malformed), session []).
Proof.
  destruct (validation_is_by_truthiness testEnv "m1" namelessBody [] (session []))
    as (P & _ & Q & _).
  split; [reflexivity|]. split.
  - apply P. right. left. reflexivity.
  - apply Q. right. reflexivity.
Defined.

Lemma handlers_conflict_and_absent_witness :
  let s := session [notFound] in
  let s1 := snd (getMember testEnv (VStr "m1") s) in
  getMember testEnv (VStr "m1") s = (Resolved None, s1)
  /\ putMember testEnv "m1" (VObj aliceBody) s
     = (Replied 404 (Some "No such member"), s1)
  /\ delMember testEnv "m1" s = (Replied 404 (Some "No such member"), s1).
Proof.
  intros s s1.
  assert (G : getMember testEnv (VStr "m1") s = (Resolved None, s1))
    by reflexivity.
  split; [exact G|].
  assert (E : truthy (orUndefined (assoc "email" aliceBody)) = true)
    by reflexivity.
  assert (N : truthy (orUndefined (assoc "name" aliceBody)) = true)
    by reflexivity.
  destruct (handlers_conflict_and_absent testEnv "m1" aliceBody s s1 E N)
    as [_ A].
  exact (A G).
Defined.

Lemma handlers_relay_lookup_failure_witness :
  let s := session [serverError] in
  let s1 := snd (getMember testEnv (VStr "m1") s) in
  getMember testEnv (VStr "m1") s
  = (Rejected (mkFailure 500 "Internal Server Error"), s1)
  /\ postMember testEnv (VObj aliceBody) s
     = (Replied 500 (Some "Internal Server Error"), s1).
Proof.
  intros s s1.
  assert (G : getMember testEnv (VStr "m1") s
              = (Rejected (mkFailure 500 "Internal Server Error"), s1))
    by reflexivity.
  split; [exact G|].
  assert (E : truthy (orUndefined (assoc "email" aliceBody)) = true)
    by reflexivity.
  assert (N : truthy (orUndefined (assoc "name" aliceBody)) = true)
    by reflexivity.
  assert (M : truthy (orUndefined (assoc "memberId" aliceBody)) = true)
    by reflexivity.
  destruct (handlers_relay_lookup_failure testEnv "m1" aliceBody s s1 E N)
    as [A _].
  destruct (A (mkFailure 500 "Internal Server Error")) as [P _].
  exact (P M G).
Defined.

Lemma reply_200_iff_resolved_witness :
  let s := session [notFound; created] in
  let s' := snd (postMember testEnv (VObj aliceBody) s) in
  postMember testEnv (VObj aliceBody) s = (Replied 200 None, s')
  /\ createMember testEnv (VStr "m1") (VStr "Alice") (VStr "a@x.com") (VBool false) s
     = (Resolved true, s').
Proof.
  intros s s'.
  assert (P : postMember testEnv (VObj aliceBody) s = (Replied 200 None, s'))
    by reflexivity.
  split; [exact P|].
  destruct (reply_200_iff_resolved testEnv "m1" aliceBody s s' None) as [[A _] _].
  destruct (A P) as (_ & _ & _ & _ & C). exact C.
Defined.

Lemma handlers_groups_follow_isVip_witness :
  let s := session [notFound; created] in
  let rq :=
    createRequest testEnv (VStr "m1") (VStr "Alice") (VStr "a@x.com") (VBool false)
      (snd (getMember testEnv (VStr "m1") s)) (VStr "t1") in
  assoc "isVip" aliceBody = None
  /\ In (EvFetch rq) (since s (snd (postMember testEnv (VObj aliceBody) s)))
  /\ exists body,
       payload rq = Some body
       /\ getProp body "groups" = inr (VArr [VStr "group-regular"]).
Proof.
  intros s rq.
  assert (I : In (EvFetch rq)
                (since s (snd (postMember testEnv (VObj aliceBody) s)))).
  { right. right. left. reflexivity. }
  split; [reflexivity|]. split; [exact I|].
  assert (E : truthy (orUndefined (assoc "email" aliceBody)) = true)
    by reflexivity.
  assert (N : truthy (orUndefined (assoc "name" aliceBody)) = true)
    by reflexivity.
  assert (M : truthy (orUndefined (assoc "memberId" aliceBody)) = true)
    by reflexivity.
  assert (NG : method rq <> GET) by discriminate.
  destruct (handlers_groups_follow_isVip testEnv "m1" aliceBody s rq E N NG)
    as (A & _ & _).
  exact (A M I).
Defined.

Lemma mutation_carries_cached_token_witness :
  let s := session [found "m1"; done] in
  let rq :=
    updateRequest testEnv (VStr "m1") (VStr "Alice") (VStr "a@x.com") (VBool true)
      aliceFound (snd (getMember testEnv (VStr "m1") s)) (VStr "t1") in
  In (EvFetch rq)
    (since s (snd (updateMember testEnv (VStr "m1") (VStr "Alice") (VStr "a@x.com")
                     (VBool true) s)))
  /\ exists ts,
       tokenSet (snd (updateMember testEnv (VStr "m1") (VStr "Alice")
                        (VStr "a@x.com") (VBool true) s)) = Some ts
       /\ bearer rq = access_token ts.
Proof.
  intros s rq.
  assert (I : In (EvFetch rq)
                (since s (snd (updateMember testEnv (VStr "m1") (VStr "Alice")
                                 (VStr "a@x.com") (VBool true) s)))).
  { right. right. left. reflexivity. }
  split; [exact I|].
  assert (NG : method rq <> GET) by discriminate.
  destruct (mutation_carries_cached_token testEnv (VStr "m1") (VStr "Alice")
              (VStr "a@x.com") (VBool true) s rq NG) as (_ & A & _).
  exact (A I).
Defined.

Lemma operations_pending_iff_witness :
  let s := session [notFound; serverError] in
  let s' := snd (createMember testEnv (VStr "m1") (VStr "Alice") (VStr "a@x.com")
                   (VBool false) s) in
  createMember testEnv (VStr "m1") (VStr "Alice") (VStr "a@x.com") (VBool false) s
  = (Pending SyntaxError, s')
  /\ (getMember testEnv (VStr "m1") s = (Pending SyntaxError, s')
      \/ exists s1,
           getMember testEnv (VStr "m1") s = (Resolved None, s1)
           /\ stuck (createRequest testEnv (VStr "m1") (VStr "Alice")
                       (VStr "a@x.com") (VBool false) s1) (afterUuid s1) s'
                SyntaxError).
Proof.
  intros s s'. split; [reflexivity|].
  apply (proj1 (proj1 (operations_pending_iff testEnv (VStr "m1") (VStr "Alice")
                         (VStr "a@x.com") (VBool false) s s' SyntaxError))).
  reflexivity.
Defined.

Lemma getMember_unreadable_success_witness :
  let s := session [done] in
  ok done = true /\ jsonBody done = None
  /\ fst (getMember testEnv (VStr "m1") s) = Pending SyntaxError.
Proof.
  intros s. split; [reflexivity|]. split; [reflexivity|].
  assert (E : getAccessToken s = (inr (VStr "t1"), snd (getAccessToken s)))
    by reflexivity.
  assert (F : fetch (searchRequest testEnv (VStr "m1") (VStr "t1"))
                (world (snd (getAccessToken s)))
              = (inr done, mkWorld 1000 [] [] ["u1"]))
    by reflexivity.
  destruct (getMember_unreadable_success testEnv (VStr "m1") _ _ _ _ _
              E F eq_refl) as (A & _).
  rewrite A; reflexivity.
Defined.

Lemma umbracoMemberModel_clock_in_audit_only_witness :
  "groups" <> "values"
  /\ getProp (umbracoMemberModel testEnv "Thu, 01 Jan 1970 00:00:00 GMT"
                (VStr "m1") (VStr "Alice") (VStr "a@x.com") (VBool true)) "groups"
     = getProp (umbracoMemberModel testEnv "Fri, 02 Jan 1970 00:00:00 GMT"
                  (VStr "m1") (VStr "Alice") (VStr "a@x.com") (VBool true)) "groups".
Proof.
  split; [discriminate|].
  apply (proj1 (umbracoMemberModel_clock_in_audit_only testEnv
                  "Thu, 01 Jan 1970 00:00:00 GMT" "Fri, 02 Jan 1970 00:00:00 GMT"
                  (VStr "m1") (VStr "Alice") (VStr "a@x.com") (VBool true))).
  discriminate.
Defined.
